(** * exceltools: the address codec and its validators

    A shallow embedding of the pure part of [exceltools.py]: the column
    letter/index conversions, the cell and range validators of
    [ExcelSpreadSheet], the exception classes they raise and the date
    conversion [excel_date].

    Conventions of the embedding.
    - A Python [int] is a [Z].
    - A Python [str] is a [string]; its characters are the code points
      0..255.  On that domain the pattern [\d] of [re] is exactly [0-9]
      and [[a-zA-Z]] is the 52 ASCII letters.
    - A Python [float] is a binary64 number: the primitive [float].
    - A Python value that reaches the codec is [None], an [int] or a
      [str]: the type [pyval].
    - A call either returns a value or raises: the type [result]. *)

From Stdlib Require Import ZArith List String Ascii Bool Lia.
From Stdlib Require Import Floats Uint63.
From Stdlib Require Import DecimalString.
From Stdlib Require DecimalPos HexadecimalString HexadecimalPos.
Import ListNotations.

Local Open Scope string_scope.
Local Open Scope Z_scope.

(** ** Exceptions *)

Inductive type_name : Set := NoneType | int_.

(** Why a [TypeError] was raised. *)
Inductive type_error : Set :=
| descriptor_needs_argument
    (* descriptor '__init__' of 'Exception' object needs an argument *)
| not_supported_between (l r : type_name)
    (* '>' not supported between instances of l and r *)
| unsupported_argument.
    (* Must supply datetime, date or pd.Series *)

(** The exception classes that the codec can raise: the built-in ones
    and the classes declared in the module. *)
Inductive exn : Set :=
| ValueError
| IndexError
| AttributeError
| TypeError (why : type_error)
| NoWorkbookError
| InvalidSheetError
| InvalidCellRefError
| InvalidRangeError.

Inductive result (A : Type) : Type :=
| Ok (a : A)
| Raise (e : exn).

Arguments Ok {A} a.
Arguments Raise {A} e.

Definition bind {A B : Type} (m : result A) (k : A -> result B) : result B :=
  match m with
  | Ok a => k a
  | Raise e => Raise e
  end.

Notation "x <- m ;; k" := (bind m (fun x => k))
  (at level 61, m at next level, right associativity).
Notation "m ;;; k" := (bind m (fun _ => k))
  (at level 61, right associativity).

Definition raises {A : Type} (m : result A) : Prop :=
  exists e, m = Raise e.

(** [Exception.__init__()] as the module calls it: through the class,
    with no instance.  The slot wrapper needs its instance argument. *)
Definition Exception___init__ (self : option exn) : result unit :=
  match self with
  | None => Raise (TypeError descriptor_needs_argument)
  | Some _ => Ok tt
  end.

(** [Error.__init__(self, msg, *args)]: calls [Exception.__init__()] and
    then stores the formatted message. *)
Definition Error___init__ (self : exn) : result unit :=
  Exception___init__ None ;;;
  Ok tt.

(** [NoWorkbookError.__init__(self)]: the same call. *)
Definition NoWorkbookError___init__ (self : exn) : result unit :=
  Exception___init__ None ;;;
  Ok tt.

(** Evaluation of the call [cls(...)]: the instance is created and the
    class's [__init__] runs on it.  [InvalidSheetError],
    [InvalidCellRefError] and [InvalidRangeError] inherit [__init__] from
    [Error]. *)
Definition instantiate (cls : exn) : result exn :=
  match cls with
  | InvalidSheetError | InvalidCellRefError | InvalidRangeError =>
      Error___init__ cls ;;; Ok cls
  | NoWorkbookError =>
      NoWorkbookError___init__ cls ;;; Ok cls
  | _ => Ok cls
  end.

(** The statement [raise cls(...)]. *)
Definition raise {A : Type} (cls : exn) : result A :=
  match instantiate cls with
  | Ok e => Raise e
  | Raise e => Raise e
  end.

(** ** Values *)

(** The arguments of the validators that the statements are about:
    [None], an integer or a string.  Other objects (a float among them)
    are outside this type, and so outside every statement below. *)
Inductive pyval : Set :=
| PyNone
| PyInt (z : Z)
| PyStr (s : string).

Definition ord (c : ascii) : Z := Z.of_N (N_of_ascii c).
Definition chr (z : Z) : ascii := ascii_of_N (Z.to_N z).

(** [divmod(a, b)] for [b > 0]: floor division and its remainder. *)
Definition divmod (a b : Z) : Z * Z := (a / b, a mod b).

(** [sys.get_int_max_str_digits()]: the interpreter's limit on the
    digits of an integer that is converted to or from a string in base
    10; 4300 unless the program changes it, which this one does not. *)
Definition int_max_str_digits : Z := 4300.

(** The decimal text of an integer: a minus sign when it is negative,
    then its digits. *)
Definition decimal (z : Z) : string := NilZero.string_of_int (Z.to_int z).

(** [str(n)] of an integer: its decimal text.  An integer of more
    digits than the limit raises [ValueError]. *)
Definition str (z : Z) : result string :=
  if int_max_str_digits <? Z.of_nat (String.length (decimal (Z.abs z)))
  then raise ValueError
  else Ok (decimal z).

(** ** Built-ins on strings *)

Definition in_range (lo hi : Z) (c : ascii) : bool :=
  (lo <=? ord c) && (ord c <=? hi).

(** [\d] *)
Definition is_digit (c : ascii) : bool := in_range 48 57 c.
(** [[a-zA-Z]] *)
Definition is_alpha (c : ascii) : bool := in_range 65 90 c || in_range 97 122 c.
(** [[a-zA-Z0-9]] *)
Definition is_alnum (c : ascii) : bool := is_alpha c || is_digit c.
(** The white space that [int] strips: tab to carriage return, space,
    NEL and the no-break space. *)
Definition is_space (c : ascii) : bool :=
  in_range 9 13 c || (ord c =? 32) || (ord c =? 133) || (ord c =? 160).

Definition len (s : string) : Z := Z.of_nat (String.length s).

(** The longest prefix of [s] whose characters satisfy [p], and the rest. *)
Fixpoint span (p : ascii -> bool) (s : string) : string * string :=
  match s with
  | String c rest =>
      if p c then let '(pre, tl) := span p rest in (String c pre, tl)
      else (EmptyString, s)
  | EmptyString => (EmptyString, EmptyString)
  end.

Definition reversed (s : string) : string :=
  string_of_list_ascii (rev (list_ascii_of_string s)).

Definition lstrip (s : string) : string := snd (span is_space s).
Definition strip (s : string) : string := reversed (lstrip (reversed (lstrip s))).

(** [s[i]] for [i >= 0]. *)
Definition getitem (s : string) (i : nat) : result ascii :=
  match String.get i s with
  | Some c => Ok c
  | None => raise IndexError
  end.

(** The digits of a decimal literal: digits, with single underscores
    allowed between two digits. *)
Fixpoint int_digits (s : string) (after_digit : bool) (acc : Z) : option Z :=
  match s with
  | EmptyString => if after_digit then Some acc else None
  | String c rest =>
      if is_digit c then int_digits rest true (acc * 10 + (ord c - 48))
      else if (ord c =? 95) && after_digit then int_digits rest false acc
      else None
  end.

(** The number of digits in a string. *)
Fixpoint count_digits (s : string) : Z :=
  match s with
  | String c rest => (if is_digit c then 1 else 0) + count_digits rest
  | EmptyString => 0
  end.

(** [int(s)] for a string, base 10: surrounding white space, an optional
    sign, then the digits.  A string of more digits than the limit
    raises [ValueError], as a string that is not a number does. *)
Definition int_of_str (s : string) : result Z :=
  let body := strip s in
  let parsed :=
    match body with
    | String "+" digits => int_digits digits false 0
    | String "-" digits => option_map Z.opp (int_digits digits false 0)
    | _ => int_digits body false 0
    end in
  match parsed with
  | Some z =>
      if int_max_str_digits <? count_digits body then raise ValueError
      else Ok z
  | None => raise ValueError
  end.

(** [str.upper] on a string of ASCII characters; the testable properties
    compare with it. *)
Definition upper_char (c : ascii) : ascii :=
  if in_range 97 122 c then chr (ord c - 32) else c.

Fixpoint upper (s : string) : string :=
  match s with
  | String c rest => String (upper_char c) (upper rest)
  | EmptyString => EmptyString
  end.

(** ** The regular expressions *)

(** [$] without [re.MULTILINE]: the end of the string, or the position
    before a newline that ends it. *)
Definition at_end (s : string) : bool :=
  match s with
  | EmptyString => true
  | String c EmptyString => ord c =? 10
  | _ => false
  end.

(** [[a-zA-Z]{1,3}] followed by something that is not a letter: the run
    of letters at the head of [s] when it has one to three of them. *)
Definition letters_1_3 (s : string) : option (string * string) :=
  let '(letters, tl) := span is_alpha s in
  if (1 <=? len letters) && (len letters <=? 3) then Some (letters, tl)
  else None.

(** [\d+] followed by something that is not a digit. *)
Definition digits_1 (s : string) : option (string * string) :=
  let '(digits, tl) := span is_digit s in
  if 1 <=? len digits then Some (digits, tl) else None.

Definition colon (s : string) : option string :=
  match s with
  | String ":" tl => Some tl
  | _ => None
  end.

Definition obind {A B : Type} (m : option A) (k : A -> option B) : option B :=
  match m with
  | Some a => k a
  | None => None
  end.

(** The groups of a match object of [_range_regex]. *)
Record match_groups : Set := {
  group1 : option string;
  group2 : option string;
  group3 : option string;
  group4 : option string;
  group5 : option string
}.

(** [match.group(i)]; [match] may be [None]. *)
Definition group (m : option match_groups) (i : match_groups -> option string)
  : result (option string) :=
  match m with
  | Some g => Ok (i g)
  | None => raise AttributeError
  end.

(** ** The module-level conversions *)

(** The loop of [col2num] over [reversed(col_str)]. *)
Fixpoint col2num_loop (chars : list ascii) (expn col_num : Z) : Z :=
  match chars with
  | [] => col_num
  | char :: rest =>
      col2num_loop rest (expn + 1)
        (col_num + (ord char - ord "A" + 1) * 26 ^ expn)
  end.

Definition col2num_str (col_str : string) : Z :=
  col2num_loop (rev (list_ascii_of_string col_str)) 0 0.

Definition col2num (col_str : pyval) : result Z :=
  match col_str with
  | PyStr s => Ok (col2num_str s)
  | _ => raise ValueError
  end.

(** The [while col_int > 0] loop of [num2col]; [fuel] bounds the number
    of iterations. *)
Fixpoint num2col_loop (fuel : nat) (col_int : Z) (col_str : string) : string :=
  match fuel with
  | O => col_str
  | S fuel' =>
      if col_int >? 0 then
        let '(col_int', remainder) := divmod (col_int - 1) 26 in
        num2col_loop fuel' col_int' (String (chr (65 + remainder)) col_str)
      else col_str
  end.

(** Each iteration replaces a positive [col_int] by a smaller number, so
    [Z.to_nat col_int] iterations are enough (see [num2col_loop_fuel]). *)
Definition num2col_int (col_int : Z) : string :=
  num2col_loop (Z.to_nat col_int) col_int "".

Definition num2col (col_int : pyval) : result string :=
  match col_int with
  | PyInt n => Ok (num2col_int n)
  | _ => raise ValueError
  end.

(** ** Dates *)

(** [datetime.date], [datetime.time], [datetime.datetime] (without time
    zone) and [datetime.timedelta]. *)
Record date : Set := { year : Z; month : Z; day : Z }.
Record time : Set := { hour : Z; minute : Z; second : Z; microsecond : Z }.
Record datetime : Set := { date_of : date; time_of : time }.
Record timedelta : Set := { days : Z; seconds : Z; microseconds : Z }.

Definition is_leap (y : Z) : bool :=
  (y mod 4 =? 0) && (negb (y mod 100 =? 0) || (y mod 400 =? 0)).

Definition days_before_year (y : Z) : Z :=
  let y := y - 1 in y * 365 + y / 4 - y / 100 + y / 400.

Definition days_before_month (y m : Z) : Z :=
  nth (Z.to_nat m) [0; 0; 31; 59; 90; 120; 151; 181; 212; 243; 273; 304; 334] 0
  + (if (m >? 2) && is_leap y then 1 else 0).

(** [date.toordinal()]: 1 for the first of January of year 1. *)
Definition toordinal (d : date) : Z :=
  days_before_year (year d) + days_before_month (year d) (month d) + day d.

(** [datetime.min.time()]: midnight. *)
Definition min_time : time :=
  {| hour := 0; minute := 0; second := 0; microsecond := 0 |}.

(** [datetime.combine(d, t)] takes the year, month and day of [d]. *)
Definition combine (d : date) (t : time) : datetime :=
  {| date_of := d; time_of := t |}.

(** [timedelta(days, seconds, microseconds)] in normal form:
    [0 <= seconds < 86400] and [0 <= microseconds < 1000000]. *)
Definition normalize (d s us : Z) : timedelta :=
  let s := s + us / 1000000 in
  {| days := d + s / 86400;
     seconds := s mod 86400;
     microseconds := us mod 1000000 |}.

(** [a - b] on two [datetime]s. *)
Definition datetime_sub (a b : datetime) : timedelta :=
  let secs (t : time) := second t + minute t * 60 + hour t * 3600 in
  normalize (toordinal (date_of a) - toordinal (date_of b))
            (secs (time_of a) - secs (time_of b))
            (microsecond (time_of a) - microsecond (time_of b)).

(** What [excel_date] is called with: a [date], a [datetime] (a subclass
    of [date]), a [pandas.Series] of timestamps, or anything else. *)
Inductive date_arg : Set :=
| ADate (d : date)
| ADateTime (d : datetime)
| ASeries (s : list datetime)
| AOther.

(** What it returns: a float, or a [Series] of floats.  A Python float
    is a binary64 number, as the primitive type [float] is. *)
Inductive date_value : Set :=
| VFloat (x : float)
| VSeries (xs : list float).

(** [float(n)] of an integer below 2^63 in absolute value, as the days
    and seconds of a [timedelta] are. *)
Definition float_of_int (z : Z) : float :=
  if z <? 0 then PrimFloat.opp (PrimFloat.of_uint63 (Uint63.of_Z (- z)))
  else PrimFloat.of_uint63 (Uint63.of_Z z).

(** [float(delta.days) + float(delta.seconds) / 86400] *)
Definition day_fraction (delta : timedelta) : float :=
  PrimFloat.add (float_of_int (days delta))
    (PrimFloat.div (float_of_int (seconds delta)) (float_of_int 86400)).

Definition excel_date (date1 : date_arg) : result date_value :=
  let temp := {| date_of := {| year := 1899; month := 12; day := 30 |};
                 time_of := min_time |} in
  match date1 with
  | ADate d =>
      let date1 := combine d min_time in
      Ok (VFloat (day_fraction (datetime_sub date1 temp)))
  | ADateTime d =>
      (* [isinstance(date1, dt.date)] holds for a [datetime] as well *)
      let date1 := combine (date_of d) min_time in
      Ok (VFloat (day_fraction (datetime_sub date1 temp)))
  | ASeries s =>
      Ok (VSeries (map (fun d => day_fraction (datetime_sub d temp)) s))
  | AOther => Raise (TypeError unsupported_argument)
  end.

(** ** Colours *)

(** What [rgb2hex] is called with: a tuple or a list, here of integers,
    or something that is neither. *)
Inductive rgb_arg : Set :=
| ATuple (items : list Z)
| AList (items : list Z)
| ANotSequence.

(** [items[i]] for [i >= 0]. *)
Definition item (items : list Z) (i : nat) : result Z :=
  match nth_error items i with
  | Some x => Ok x
  | None => raise IndexError
  end.

(** ["%x" % n]: lower-case hexadecimal digits, after the sign. *)
Definition format_x (n : Z) : string :=
  HexadecimalString.NilZero.string_of_int (Z.to_hex_int n).

(** ["%02x" % n]: filled with a zero up to two characters. *)
Definition format_02x (n : Z) : string :=
  let digits := format_x n in
  if len digits <? 2 then String "0" digits else digits.

Definition hex_digit_value (c : ascii) : option Z :=
  if is_digit c then Some (ord c - 48)
  else if in_range 97 102 c then Some (ord c - 87)
  else if in_range 65 70 c then Some (ord c - 55)
  else None.

(** The digits of a hexadecimal literal, with single underscores
    allowed between two digits. *)
Fixpoint int16_digits (s : string) (after_digit : bool) (acc : Z) : option Z :=
  match s with
  | EmptyString => if after_digit then Some acc else None
  | String c rest =>
      match hex_digit_value c with
      | Some d => int16_digits rest true (acc * 16 + d)
      | None =>
          if (ord c =? 95) && after_digit then int16_digits rest false acc
          else None
      end
  end.

(** What follows the sign: an optional prefix [0x] or [0X], after which
    one underscore may stand, and the digits. *)
Definition int16_unsigned (s : string) : option Z :=
  match s with
  | String c0 (String c1 rest) =>
      if (ord c0 =? 48) && ((ord c1 =? 120) || (ord c1 =? 88)) then
        match rest with
        | String c2 rest' =>
            if ord c2 =? 95 then int16_digits rest' false 0
            else int16_digits rest false 0
        | EmptyString => None
        end
      else int16_digits s false 0
  | _ => int16_digits s false 0
  end.

(** [int(s, 16)] for a string. *)
Definition int_of_str16 (s : string) : result Z :=
  let body := strip s in
  let parsed :=
    match body with
    | String c rest =>
        if ord c =? 43 then int16_unsigned rest
        else if ord c =? 45 then option_map Z.opp (int16_unsigned rest)
        else int16_unsigned body
    | EmptyString => None
    end in
  match parsed with
  | Some z => Ok z
  | None => raise ValueError
  end.

(** The module-level [rgb2hex]; its [TypeError] is the one it raises
    itself for an argument that is not a tuple or a list. *)
Definition rgb2hex (rgb : rgb_arg) : result Z :=
  match rgb with
  | ANotSequence => raise (TypeError unsupported_argument)
  | ATuple items | AList items =>
      blue <- item items 2 ;;
      green <- item items 1 ;;
      red <- item items 0 ;;
      let str_value := (format_02x blue ++ format_02x green
                        ++ format_02x red)%string in
      int_of_str16 str_value
  end.

(** ** Other built-ins *)

(** [str.lower] on the code points 0..255: the letters A-Z and the
    capital letters of Latin-1 move up by 32. *)
Definition lower_char (c : ascii) : ascii :=
  if in_range 65 90 c || (in_range 192 222 c && negb (ord c =? 215))
  then chr (ord c + 32) else c.

Fixpoint lower (s : string) : string :=
  match s with
  | String c rest => String (lower_char c) (lower rest)
  | EmptyString => EmptyString
  end.

(** A call that may also end in the [RuntimeError] of a dictionary whose
    size changed while it was iterated over. *)
Inductive outcome (A : Type) : Type :=
| Returns (a : A)
| Raises (e : exn)
| RaisesRuntimeError.

Arguments Returns {A} a.
Arguments Raises {A} e.
Arguments RaisesRuntimeError {A}.

Definition of_result {A : Type} (m : result A) : outcome A :=
  match m with
  | Ok a => Returns a
  | Raise e => Raises e
  end.

(** Keyword arguments: a dictionary, in the order of the call. *)
Definition dict (V : Type) : Type := list (string * V).

Definition has_key {V : Type} (k : string) (d : dict V) : bool :=
  existsb (fun entry => String.eqb (fst entry) k) d.

(** [del d[k]] *)
Definition del {V : Type} (k : string) (d : dict V) : dict V :=
  filter (fun entry => negb (String.eqb (fst entry) k)) d.

(** ** The validators of [ExcelSpreadSheet] *)

Module ExcelSpreadSheet.

(** The attributes of an instance that the validators read. *)
Record t : Set := {
  _wb_open : Z;
  sheetnames : list string
}.

(** [re.compile(r"^[a-zA-Z]{1}\d+$")], used with [re.match]. *)
Definition _cell_regex (s : string) : bool :=
  match s with
  | String c rest =>
      is_alpha c &&
      match digits_1 rest with
      | Some (_, tl) => at_end tl
      | None => false
      end
  | EmptyString => false
  end.

(** [(^[a-zA-Z]{1,3})(\d+):([a-zA-Z]{1,3})(\d+$)] *)
Definition bounded_range (s : string) : option match_groups :=
  obind (letters_1_3 s) (fun '(col_1, s1) =>
  obind (digits_1 s1) (fun '(row_1, s2) =>
  obind (colon s2) (fun s3 =>
  obind (letters_1_3 s3) (fun '(col_2, s4) =>
  obind (digits_1 s4) (fun '(row_2, s5) =>
  if at_end s5 then
    Some {| group1 := Some col_1; group2 := Some row_1;
            group3 := Some col_2; group4 := Some row_2;
            group5 := None |}
  else None))))).

(** [(^[a-zA-Z]{1,3}:[a-zA-Z]{1,3}$)] *)
Definition whole_columns (s : string) : option match_groups :=
  obind (letters_1_3 s) (fun '(col_1, s1) =>
  obind (colon s1) (fun s2 =>
  obind (letters_1_3 s2) (fun '(col_2, s3) =>
  if at_end s3 then
    Some {| group1 := None; group2 := None; group3 := None;
            group4 := None;
            group5 := Some (col_1 ++ ":" ++ col_2)%string |}
  else None))).

(** [re.match(self._range_regex, _range)]: the first alternative, then
    the second. *)
Definition _range_regex (s : string) : option match_groups :=
  match bounded_range s with
  | Some g => Some g
  | None => whole_columns s
  end.

(** The static method [col2num]: the loop of the module-level
    function, without its [isinstance] test; the validators call it on
    strings. *)
Definition col2num (col_str : string) : Z :=
  col2num_loop (rev (list_ascii_of_string col_str)) 0 0.

(** [a > b]; the operands are [None] or integers. *)
Definition gt (a b : option Z) : result bool :=
  match a, b with
  | Some x, Some y => Ok (x >? y)
  | None, None => Raise (TypeError (not_supported_between NoneType NoneType))
  | None, Some _ => Raise (TypeError (not_supported_between NoneType int_))
  | Some _, None => Raise (TypeError (not_supported_between int_ NoneType))
  end.

(** The static method [num2col], again without the [isinstance] test;
    its argument is [None] or an integer, and [None > 0] is a
    [TypeError]. *)
Definition num2col (col_int : option Z) : result string :=
  match col_int with
  | Some n => Ok (num2col_loop (Z.to_nat n) n "")
  | None => Raise (TypeError (not_supported_between NoneType int_))
  end.

(** [str] of [None] or an integer. *)
Definition str_ (v : option Z) : result string :=
  match v with
  | Some z => str z
  | None => Ok "None"
  end.

(** [re.search(r"[^a-zA-Z0-9]", col)] finds something. *)
Fixpoint has_non_alnum (s : string) : bool :=
  match s with
  | String c rest => negb (is_alnum c) || has_non_alnum rest
  | EmptyString => false
  end.

Definition _validate_column (col : pyval) : result (option Z) :=
  (* the end of the method, once [col] is an integer: [int(col)]
     succeeds, then the width check *)
  let width_check (col : Z) : result (option Z) :=
    if col >? 18278 then raise ValueError else Ok (Some col) in
  match col with
  | PyNone => Ok None
  | PyStr s =>
      if has_non_alnum s then raise ValueError
      else if len s >? 3 then raise ValueError
      else width_check (col2num s)
  | PyInt z => width_check z
  end.

Definition _validate_row (row : pyval) : result (option Z) :=
  match row with
  | PyNone => Ok None
  | PyInt z => Ok (Some z)
  | PyStr s => row <- int_of_str s ;; Ok (Some row)
  end.

Definition _validate_workbook (self : t) : result unit :=
  if _wb_open self =? 0 then raise NoWorkbookError else Ok tt.

Definition _validate_worksheet (self : t) (sheet : pyval) : result unit :=
  match sheet with
  | PyStr name =>
      if negb (existsb (String.eqb name) (sheetnames self))
      then raise InvalidSheetError else Ok tt
  | PyInt index =>
      if Z.of_nat (List.length (sheetnames self)) <? index
      then raise InvalidSheetError else Ok tt
  | PyNone => Ok tt
  end.

Definition is_None (v : pyval) : bool :=
  match v with PyNone => true | _ => false end.

Definition of_option (v : option Z) : pyval :=
  match v with Some z => PyInt z | None => PyNone end.

Definition of_group (v : option string) : pyval :=
  match v with Some s => PyStr s | None => PyNone end.

Definition absent {A : Type} (v : option A) : bool :=
  match v with None => true | Some _ => false end.

(** Returns the pair [(row, col)]. *)
Definition _validate_cellref (cellref : option string) (row col : pyval)
  : result (pyval * pyval) :=
  if is_None row && is_None col && absent cellref then
    raise InvalidCellRefError
  else if negb (is_None row) && negb (is_None col) && negb (absent cellref)
  then
    raise InvalidCellRefError
  else if (is_None row && is_None col)
          && match cellref with
             | Some ref => negb (_cell_regex ref)
             | None => false
             end
  then
    raise InvalidCellRefError
  else
    match cellref with
    | None =>
        row <- _validate_row row ;;
        col <- _validate_column col ;;
        Ok (of_option row, of_option col)
    | Some cellref =>
        col <- getitem cellref 0 ;;
        digit <- getitem cellref 1 ;;
        row <- int_of_str (String digit EmptyString) ;;
        Ok (PyInt row, PyStr (String col EmptyString))
    end.

Definition _validate_range (_range : option string)
  (startrow endrow startcol endcol : pyval) : result string :=
  startcol <- _validate_column startcol ;;
  endcol <- _validate_column endcol ;;
  startrow <- _validate_row startrow ;;
  endrow <- _validate_row endrow ;;
  let coords := [startrow; endrow; startcol; endcol] in
  let from_coords : result string :=
    if existsb (fun c => negb (absent c)) coords && existsb absent coords
    then raise InvalidRangeError
    else if forallb (fun c => negb (absent c)) coords && negb (absent _range)
    then raise InvalidRangeError
    else
      above <- gt startcol endcol ;;
      if above : bool then raise InvalidRangeError
      else
        below <- gt startrow endrow ;;
        if below : bool then raise InvalidRangeError
        else
          startletters <- num2col startcol ;;
          startdigits <- str_ startrow ;;
          endletters <- num2col endcol ;;
          enddigits <- str_ endrow ;;
          Ok (startletters ++ startdigits ++ ":"
              ++ endletters ++ enddigits)%string in
  match _range, forallb absent coords with
  | Some text, true =>
      let match_ := _range_regex text in
      col_1 <- group match_ group1 ;;
      row_1 <- group match_ group2 ;;
      col_2 <- group match_ group3 ;;
      row_2 <- group match_ group4 ;;
      cols_only <- group match_ group5 ;;
      if absent match_ then raise InvalidRangeError
      else if negb (absent cols_only) then Ok text
      else
        col_1 <- _validate_column (of_group col_1) ;;
        col_2 <- _validate_column (of_group col_2) ;;
        row_1 <- _validate_row (of_group row_1) ;;
        row_2 <- _validate_row (of_group row_2) ;;
        above <- gt col_1 col_2 ;;
        if above : bool then raise InvalidRangeError
        else
          below <- gt row_1 row_2 ;;
          if below : bool then raise InvalidRangeError
          else Ok text
  | _, _ => from_coords
  end.

(** [read_dataframe] up to the range it hands to the host: the three
    validations with which it starts. *)
Definition read_dataframe_range (self : t) (sheet : pyval)
  (excel_range : option string) (startrow endrow startcol endcol : pyval)
  : result string :=
  _validate_workbook self ;;;
  _validate_worksheet self sheet ;;;
  _validate_range excel_range startrow endrow startcol endcol.

(** *** Methods that validate before they reach the host *)

(** The static method [rgb2hex] has the body of the module-level
    function. *)
Definition rgb2hex (rgb : rgb_arg) : result Z :=
  match rgb with
  | ANotSequence => raise (TypeError unsupported_argument)
  | ATuple items | AList items =>
      blue <- item items 2 ;;
      green <- item items 1 ;;
      red <- item items 0 ;;
      let str_value := (format_02x blue ++ format_02x green
                        ++ format_02x red)%string in
      int_of_str16 str_value
  end.

(** [read_cell] up to the host: the row and the column that it hands to
    [sheet.Cells].  ([write_cell] makes the same three calls after the
    test of its data.) *)
Definition read_cell_address (self : t) (sheet : pyval)
  (cellref : option string) (col row : pyval)
  : result (option Z * option Z) :=
  _validate_workbook self ;;;
  _validate_worksheet self sheet ;;;
  address <- _validate_cellref cellref row col ;;
  col <- _validate_column (snd address) ;;
  row <- _validate_row (fst address) ;;
  Ok (row, col).

(** The keys of [format_args["Condition"]] and [format_args["Format"]],
    in the order of the dictionaries. *)
Definition Condition_keys : list string := ["logic"; "value"; "value2"].

Definition Format_keys : list string :=
  ["interior_colour"; "number_format"; "bold"; "font_colour"; "font_size";
   "font_name"; "orientation"; "underline"; "merge"; "wrap_text";
   "h_align"; "v_align"; "border_left"; "border_right"; "border_top";
   "border_bot"; "border_inside_h"; "border_inside_v"].

(** [get_format_args] *)
Definition get_format_args : list string := Format_keys.

(** The loop
      [for k in kwargs.keys(): if k not in arg_list: warn(...); del kwargs[k]].
    [keys] are the keys still to come and [size] is the size of the
    dictionary when the loop started: the iterator compares it with the
    present size before every step, and raises [RuntimeError] when they
    differ.  The result is the list of the keys warned about, and the
    dictionary, or [None] for the [RuntimeError]. *)
Fixpoint drop_unknown {V : Type} (arg_list : list string) (size : nat)
  (keys : list string) (kwargs : dict V) (warned : list string)
  : list string * option (dict V) :=
  if negb (Nat.eqb (List.length kwargs) size) then (warned, None)
  else
    match keys with
    | [] => (warned, Some kwargs)
    | k :: keys' =>
        if existsb (String.eqb k) arg_list
        then drop_unknown arg_list size keys' kwargs warned
        else drop_unknown arg_list size keys' (del k kwargs)
               (warned ++ [k])%list
    end.

(** [format_range] up to the host: the warnings, and the keyword
    arguments and the range that it goes on with. *)
Definition format_range {V : Type} (self : t) (sheet : pyval)
  (excel_range : option string) (startrow endrow startcol endcol : pyval)
  (kwargs : dict V) : list string * outcome (dict V * string) :=
  let arg_list := Format_keys in
  match drop_unknown arg_list (List.length kwargs) (map fst kwargs) kwargs []
  with
  | (warned, None) => (warned, RaisesRuntimeError)
  | (warned, Some kwargs) =>
      (warned,
       of_result
         (_validate_workbook self ;;;
          _validate_worksheet self sheet ;;;
          excel_range <- _validate_range excel_range
                           startrow endrow startcol endcol ;;
          Ok (kwargs, excel_range)))
  end.

(** [ast.literal_eval(i)] for [i] one of the names "logic", "value",
    "value2": a name is not a literal, the call raises [ValueError]
    (which [except NameError] does not catch). *)
Definition literal_eval_name {V : Type} (i : string) : result V :=
  raise ValueError.

(** The loop that adds the required values:
      [for i in Condition keys: if i not in kwargs.keys(): kwargs[i] = ...] *)
Fixpoint add_required {V : Type} (names : list string) (kwargs : dict V)
  : result (dict V) :=
  match names with
  | [] => Ok kwargs
  | i :: names' =>
      if has_key i kwargs then add_required names' kwargs
      else
        v <- literal_eval_name i ;;
        add_required names' (kwargs ++ [(i, v)])%list
  end.

(** [conditional_formatting] up to the look-up of its constants. *)
Definition conditional_formatting {V : Type} (self : t) (sheet : pyval)
  (excel_range : option string) (startrow endrow startcol endcol : pyval)
  (kwargs : dict V) : list string * outcome (dict V * string) :=
  let arg_list := (Condition_keys ++ Format_keys)%list in
  match drop_unknown arg_list (List.length kwargs) (map fst kwargs) kwargs []
  with
  | (warned, None) => (warned, RaisesRuntimeError)
  | (warned, Some kwargs) =>
      (warned,
       of_result
         (kwargs <- add_required Condition_keys kwargs ;;
          _validate_workbook self ;;;
          _validate_worksheet self sheet ;;;
          excel_range <- _validate_range excel_range
                           startrow endrow startcol endcol ;;
          Ok (kwargs, excel_range)))
  end.

Definition visibilty_values : list (string * Z) :=
  [("visible", -1); ("hidden", 1); ("very hidden", 2)].

Definition lookup (k : string) (d : list (string * Z)) : option Z :=
  option_map snd (find (fun entry => String.eqb (fst entry) k) d).

(** What the list [[visibilty_values.values()]] holds: objects that are
    integers or views of the values of a dictionary. *)
Inductive object : Set :=
| OInt (z : Z)
| ODictValues (values : list Z).

(** [z == o] for an integer [z]: a view of values equals nothing but
    itself. *)
Definition int_eq (z : Z) (o : object) : bool :=
  match o with
  | OInt y => z =? y
  | ODictValues _ => false
  end.

(** [set_sheet_visibility] up to the host: the value that it assigns to
    the sheet's [Visible].  An integer is looked for in the one-element
    list [[visibilty_values.values()]]. *)
Definition set_sheet_visibility (self : t) (sheet visibility : pyval)
  : result pyval :=
  _validate_workbook self ;;;
  _validate_worksheet self sheet ;;;
  let invalid :=
    match visibility with
    | PyStr s => negb (has_key (lower s) visibilty_values)
    | PyInt z =>
        negb (existsb (int_eq z) [ODictValues (map snd visibilty_values)])
    | PyNone => false
    end in
  if invalid then raise ValueError
  else
    match visibility with
    | PyStr s =>
        match lookup s visibilty_values with
        | Some v => Ok (PyInt v)
        | None => Ok visibility
        end
    | _ => Ok visibility
    end.


End ExcelSpreadSheet.

(** ** Notions used in the statements *)

(** The rank of a letter: [ord(char) - ord("A") + 1]. *)
Definition rank (c : ascii) : Z := ord c - ord "A" + 1.

(** Value of a little-endian list of characters, the order in which
    [col2num] visits them. *)
Fixpoint le_value (chars : list ascii) : Z :=
  match chars with
  | [] => 0
  | c :: rest => rank c + 26 * le_value rest
  end.

(** [[A-Z]] *)
Definition is_upper (c : ascii) : bool := in_range 65 90 c.

Fixpoint all_upper (s : string) : bool :=
  match s with
  | String c rest => is_upper c && all_upper rest
  | EmptyString => true
  end.

(** An exception of a built-in class. *)
Definition builtin (e : exn) : bool :=
  match e with
  | ValueError | IndexError | AttributeError | TypeError _ => true
  | _ => false
  end.

(** An exception of one of the classes that the module declares. *)
Definition own_class (e : exn) : bool :=
  match e with
  | NoWorkbookError | InvalidSheetError | InvalidCellRefError
  | InvalidRangeError => true
  | _ => false
  end.

(** Whatever the call raises is of a built-in class. *)
Definition only_builtin {A : Type} (m : result A) : Prop :=
  forall e, m = Raise e -> builtin e = true.

Fixpoint all_alpha (s : string) : bool :=
  match s with
  | String c rest => is_alpha c && all_alpha rest
  | EmptyString => true
  end.

(** The number that the decimal digits of [d] denote after the digits
    already read, [acc]. *)
Fixpoint uint_value (d : Decimal.uint) (acc : Z) : Z :=
  match d with
  | Decimal.Nil => acc
  | Decimal.D0 d => uint_value d (acc * 10 + 0)
  | Decimal.D1 d => uint_value d (acc * 10 + 1)
  | Decimal.D2 d => uint_value d (acc * 10 + 2)
  | Decimal.D3 d => uint_value d (acc * 10 + 3)
  | Decimal.D4 d => uint_value d (acc * 10 + 4)
  | Decimal.D5 d => uint_value d (acc * 10 + 5)
  | Decimal.D6 d => uint_value d (acc * 10 + 6)
  | Decimal.D7 d => uint_value d (acc * 10 + 7)
  | Decimal.D8 d => uint_value d (acc * 10 + 8)
  | Decimal.D9 d => uint_value d (acc * 10 + 9)
  end.

Fixpoint all_digits (s : string) : bool :=
  match s with
  | String c rest => is_digit c && all_digits rest
  | EmptyString => true
  end.

Fixpoint no_space (s : string) : bool :=
  match s with
  | String c rest => negb (is_space c) && no_space rest
  | EmptyString => true
  end.

(** [s] is empty or starts with a character that [p] refuses. *)
Definition stops (p : ascii -> bool) (s : string) : bool :=
  match s with
  | String c _ => negb (p c)
  | EmptyString => true
  end.

Fixpoint all_chars (p : ascii -> bool) (s : string) : bool :=
  match s with
  | String c rest => p c && all_chars p rest
  | EmptyString => true
  end.

(** The character of a hexadecimal digit, in lower case. *)
Definition hex_char (d : Z) : ascii :=
  chr (if d <? 10 then 48 + d else 87 + d).

(** The first key of [keys] that is not in [arg_list]. *)
Definition first_unknown (arg_list keys : list string) : option string :=
  find (fun k => negb (existsb (String.eqb k) arg_list)) keys.

(** * Properties *)

Example col2num_A : col2num (PyStr "A") = Ok 1.
Proof. reflexivity. Qed.

Example col2num_ZZZ : col2num (PyStr "ZZZ") = Ok 18278.
Proof. reflexivity. Qed.

Example num2col_27 : num2col (PyInt 27) = Ok "AA".
Proof. reflexivity. Qed.

Example str_neg :
  str (-15) = Ok "-15" /\ str 0 = Ok "0" /\ str 120 = Ok "120".
Proof. repeat split. Qed.

(** ** Arithmetic of the two conversions *)

Lemma col2num_loop_spec (chars : list ascii) :
  forall expn col_num, 0 <= expn ->
    col2num_loop chars expn col_num = col_num + 26 ^ expn * le_value chars.
Proof.
  induction chars as [|c rest IH]; intros expn col_num Hexpn;
    cbn [col2num_loop le_value].
  - lia.
  - rewrite IH by lia. fold (rank c).
    rewrite Z.pow_add_r, Z.pow_1_r by lia. ring.
Qed.

Lemma le_value_app (l : list ascii) (c : ascii) :
  le_value (l ++ [c]) = le_value l + 26 ^ Z.of_nat (List.length l) * rank c.
Proof.
  induction l as [|d l IH].
  - cbn [app le_value List.length]. change (26 ^ Z.of_nat 0) with 1. ring.
  - cbn [app le_value List.length]. rewrite IH.
    rewrite Nat2Z.inj_succ, Z.pow_succ_r by lia. ring.
Qed.

Lemma col2num_str_value (s : string) :
  col2num_str s = le_value (rev (list_ascii_of_string s)).
Proof.
  unfold col2num_str. rewrite col2num_loop_spec by lia.
  change (26 ^ 0) with 1. ring.
Qed.

Lemma length_list_ascii (s : string) :
  List.length (list_ascii_of_string s) = String.length s.
Proof. induction s; simpl; congruence. Qed.

Lemma col2num_str_cons (c : ascii) (s : string) :
  col2num_str (String c s)
  = rank c * 26 ^ Z.of_nat (String.length s) + col2num_str s.
Proof.
  rewrite !col2num_str_value. cbn [list_ascii_of_string rev].
  rewrite le_value_app, length_rev, length_list_ascii. ring.
Qed.

Lemma ord_chr (z : Z) : 0 <= z < 256 -> ord (chr z) = z.
Proof.
  intros Hz. unfold ord, chr.
  rewrite N_ascii_embedding by lia. lia.
Qed.

Lemma chr_ord (c : ascii) : chr (ord c) = c.
Proof.
  unfold ord, chr. rewrite N2Z.id. apply ascii_N_embedding.
Qed.

(** Enough fuel: the result of the loop does not depend on it. *)
Lemma num2col_loop_fuel (f1 : nat) :
  forall f2 n acc,
    (Z.to_nat n <= f1)%nat -> (Z.to_nat n <= f2)%nat ->
    num2col_loop f1 n acc = num2col_loop f2 n acc.
Proof.
  induction f1 as [|f1 IH]; intros f2 n acc H1 H2.
  - destruct f2 as [|f2]; [reflexivity|]. simpl.
    destruct (Z.gtb_spec n 0); [lia | reflexivity].
  - destruct f2 as [|f2]; simpl.
    + destruct (Z.gtb_spec n 0); [lia | reflexivity].
    + destruct (Z.gtb_spec n 0) as [Hn|Hn]; [|reflexivity].
      assert (0 <= (n - 1) / 26 < n).
      { split; [apply Z.div_pos; lia|].
        apply Z.div_lt_upper_bound; lia. }
      apply IH; lia.
Qed.

Lemma num2col_loop_step (n : Z) (acc : string) :
  0 < n ->
  num2col_loop (Z.to_nat n) n acc
  = num2col_loop (Z.to_nat ((n - 1) / 26)) ((n - 1) / 26)
      (String (chr (65 + (n - 1) mod 26)) acc).
Proof.
  intros Hn.
  destruct (Z.to_nat n) as [|f] eqn:Hf; [lia|].
  simpl. destruct (Z.gtb_spec n 0); [|lia].
  assert (0 <= (n - 1) / 26 < n).
  { split; [apply Z.div_pos; lia|].
    apply Z.div_lt_upper_bound; lia. }
  apply num2col_loop_fuel; lia.
Qed.

Lemma num2col_loop_nonpos (n : Z) (acc : string) :
  n <= 0 -> num2col_loop (Z.to_nat n) n acc = acc.
Proof.
  intros Hn. replace (Z.to_nat n) with O by lia. reflexivity.
Qed.

Lemma col2num_num2col_loop :
  forall n, 0 <= n -> forall acc,
    col2num_str (num2col_loop (Z.to_nat n) n acc)
    = n * 26 ^ Z.of_nat (String.length acc) + col2num_str acc.
Proof.
  intros n Hn. generalize Hn. pattern n.
  apply Z_lt_induction; [|exact Hn].
  clear n Hn. intros n IH Hn acc.
  destruct (Z.eq_dec n 0) as [->|Hnz].
  - simpl. lia.
  - rewrite num2col_loop_step by lia.
    assert (Hq : 0 <= (n - 1) / 26 < n).
    { split; [apply Z.div_pos; lia|].
      apply Z.div_lt_upper_bound; lia. }
    pose proof (Z.mod_pos_bound (n - 1) 26 ltac:(lia)) as Hr.
    rewrite IH by lia.
    rewrite col2num_str_cons. unfold rank.
    rewrite ord_chr by lia.
    cbn [String.length]. rewrite Nat2Z.inj_succ, Z.pow_succ_r by lia.
    change (ord "A") with 65.
    pose proof (Z.div_mod (n - 1) 26 ltac:(lia)) as Hdm.
    set (q := (n - 1) / 26) in *. set (r := (n - 1) mod 26) in *.
    set (p := 26 ^ Z.of_nat (String.length acc)).
    replace (n * p) with ((26 * q + r + 1) * p) by (f_equal; lia). ring.
Qed.

(** ** Exceptions of the module's own classes *)

(** Instantiating a class derived from [Error], or [NoWorkbookError],
    never yields the instance: [__init__] raises first. *)
Lemma raise_own_class (A : Type) (cls : exn) :
  In cls [NoWorkbookError; InvalidSheetError; InvalidCellRefError;
          InvalidRangeError] ->
  @raise A cls = Raise (TypeError descriptor_needs_argument).
Proof.
  intros [<-|[<-|[<-|[<-|[]]]]]; reflexivity.
Qed.

Lemma raise_builtin (A : Type) (cls : exn) :
  In cls [ValueError; IndexError; AttributeError] ->
  @raise A cls = Raise cls.
Proof.
  intros [<-|[<-|[<-|[]]]]; reflexivity.
Qed.

(** ** Cell references *)

Lemma int_of_str_digit (d : ascii) :
  is_digit d = true ->
  int_of_str (String d EmptyString) = Ok (ord d - 48).
Proof.
  destruct d as [[] [] [] [] [] [] [] []];
    vm_compute; intros H; try discriminate H; reflexivity.
Qed.

(** What [_validate_cellref] returns for a reference that matches the
    strict pattern: the letter, and the value of the first digit only. *)
Theorem validate_cellref_strict (cellref : string) :
  ExcelSpreadSheet._cell_regex cellref = true ->
  exists col digit rest,
    cellref = String col (String digit rest) /\
    is_alpha col = true /\ is_digit digit = true /\
    ExcelSpreadSheet._validate_cellref (Some cellref) PyNone PyNone
    = Ok (PyInt (ord digit - 48), PyStr (String col EmptyString)).
Proof.
  intros Hm. unfold ExcelSpreadSheet._validate_cellref.
  cbn [ExcelSpreadSheet.is_None ExcelSpreadSheet.absent andb negb].
  rewrite Hm. cbn [negb].
  destruct cellref as [|col rest]; [discriminate Hm|].
  cbn [ExcelSpreadSheet._cell_regex] in Hm.
  apply andb_true_iff in Hm as [Hcol Hrest].
  destruct rest as [|digit rest].
  { vm_compute in Hrest. discriminate Hrest. }
  assert (Hd : is_digit digit = true).
  { unfold digits_1 in Hrest. cbn [span] in Hrest.
    destruct (is_digit digit); [reflexivity|].
    vm_compute in Hrest. discriminate Hrest. }
  exists col, digit, rest. repeat split; try assumption.
  unfold getitem. cbn [String.get bind].
  rewrite (int_of_str_digit digit Hd). reflexivity.
Qed.

Lemma validate_cellref_strict_witness :
  exists col digit rest,
    "B15" = String col (String digit rest) /\
    is_alpha col = true /\ is_digit digit = true /\
    ExcelSpreadSheet._validate_cellref (Some "B15") PyNone PyNone
    = Ok (PyInt (ord digit - 48), PyStr (String col EmptyString)).
Proof. apply (validate_cellref_strict "B15"). reflexivity. Defined.

(** C2. A reference that matches the strict pattern is resolved to its
    letter and to the value of its first digit: "B5" gives row 5, and
    "B15" gives row 1, not the row 15 that is written. *)
Theorem validate_cellref_first_digit_only :
  ExcelSpreadSheet._cell_regex "B15" = true /\
  ExcelSpreadSheet._validate_cellref (Some "B15") PyNone PyNone
  = Ok (PyInt 1, PyStr "B") /\
  ExcelSpreadSheet._validate_cellref (Some "B5") PyNone PyNone
  = Ok (PyInt 5, PyStr "B") /\
  ExcelSpreadSheet._validate_column (PyStr "B") = Ok (Some 2).
Proof. repeat split. Qed.

(** C8. With no argument at all, and with a reference together with
    both co-ordinates, [_validate_cellref] reaches its
    [raise InvalidCellRefError(...)]; building the exception fails, and
    the caller gets the [TypeError] of [Exception.__init__()]. *)
Theorem validate_cellref_none_or_all (cellref : string) (row col : Z) :
  ExcelSpreadSheet._validate_cellref None PyNone PyNone
  = Raise (TypeError descriptor_needs_argument) /\
  ExcelSpreadSheet._validate_cellref (Some cellref) (PyInt row) (PyInt col)
  = Raise (TypeError descriptor_needs_argument).
Proof. split; reflexivity. Qed.

(** ** Ranges *)

(** C3. A text that the range pattern does not match makes
    [_validate_range] raise [AttributeError]: [match.group(1)] is
    evaluated on [None] before the test [match is None]. *)
Theorem validate_range_unmatched_text (text : string) :
  ExcelSpreadSheet._range_regex text = None ->
  ExcelSpreadSheet._validate_range (Some text) PyNone PyNone PyNone PyNone
  = Raise AttributeError.
Proof.
  intros Hm. unfold ExcelSpreadSheet._validate_range.
  cbn [ExcelSpreadSheet._validate_column ExcelSpreadSheet._validate_row
       bind forallb ExcelSpreadSheet.absent andb].
  rewrite Hm. reflexivity.
Qed.

Lemma validate_range_unmatched_text_witness :
  ExcelSpreadSheet._range_regex "hello" = None /\
  ExcelSpreadSheet._validate_range (Some "hello") PyNone PyNone PyNone PyNone
  = Raise AttributeError.
Proof.
  split; [reflexivity|].
  apply (validate_range_unmatched_text "hello"). reflexivity.
Defined.

(** Four integer co-ordinates out of order: the [raise
    InvalidRangeError(...)] is reached and ends in the [TypeError]. *)
Theorem validate_range_inverted (startrow endrow startcol endcol : Z) :
  startcol <= 18278 -> endcol <= 18278 ->
  endcol < startcol \/ endrow < startrow ->
  ExcelSpreadSheet._validate_range None
    (PyInt startrow) (PyInt endrow) (PyInt startcol) (PyInt endcol)
  = Raise (TypeError descriptor_needs_argument).
Proof.
  intros Hs He Hinv. unfold ExcelSpreadSheet._validate_range.
  cbn [ExcelSpreadSheet._validate_column ExcelSpreadSheet._validate_row].
  destruct (Z.gtb_spec startcol 18278); [lia|].
  destruct (Z.gtb_spec endcol 18278); [lia|].
  cbn [bind forallb existsb ExcelSpreadSheet.absent andb orb negb
       ExcelSpreadSheet.gt].
  destruct (Z.gtb_spec startcol endcol); [reflexivity|].
  cbn [bind ExcelSpreadSheet.gt].
  destruct (Z.gtb_spec startrow endrow); [reflexivity|lia].
Qed.

Lemma validate_range_inverted_witness :
  ExcelSpreadSheet._validate_range None
    (PyInt 1) (PyInt 3) (PyInt 28) (PyInt 27)
  = Raise (TypeError descriptor_needs_argument).
Proof. apply (validate_range_inverted 1 3 28 27); lia. Defined.

(** C7. From the co-ordinates (1, 3, 1, 2) the range is "A1:B3".  From
    an inverted rectangle, (3, 1, 1, 2), nothing is swapped and the call
    fails, but with the [TypeError] of the exception's constructor, not
    with an [InvalidRangeError]. *)
Theorem validate_range_from_coordinates :
  ExcelSpreadSheet._validate_range None (PyInt 1) (PyInt 3) (PyInt 1) (PyInt 2)
  = Ok "A1:B3" /\
  ExcelSpreadSheet._validate_range None (PyInt 3) (PyInt 1) (PyInt 1) (PyInt 2)
  = Raise (TypeError descriptor_needs_argument) /\
  ExcelSpreadSheet._validate_range None (PyInt 1) (PyInt 3) (PyInt 2) (PyInt 1)
  = Raise (TypeError descriptor_needs_argument).
Proof. repeat split. Qed.

(** C10. With every argument [None], [_validate_range] fails in the
    comparison [startcol > endcol] of [None] with [None]: a [TypeError],
    not an [InvalidRangeError].  [read_dataframe] on an open workbook and
    a valid sheet, with no range argument, ends the same way. *)
Theorem validate_range_all_None
  (self : ExcelSpreadSheet.t) (sheet : pyval) :
  ExcelSpreadSheet._validate_workbook self = Ok tt ->
  ExcelSpreadSheet._validate_worksheet self sheet = Ok tt ->
  let failure := Raise (TypeError (not_supported_between NoneType NoneType)) in
  ExcelSpreadSheet._validate_range None PyNone PyNone PyNone PyNone = failure /\
  ExcelSpreadSheet.read_dataframe_range self sheet None
    PyNone PyNone PyNone PyNone = failure /\
  failure <> @Raise string InvalidRangeError.
Proof.
  intros Hwb Hws failure. split; [reflexivity|]. split.
  - unfold ExcelSpreadSheet.read_dataframe_range.
    rewrite Hwb, Hws. reflexivity.
  - discriminate.
Qed.

Lemma validate_range_all_None_witness :
  let self := {| ExcelSpreadSheet._wb_open := 1;
                 ExcelSpreadSheet.sheetnames := ["Sheet1"] |} in
  ExcelSpreadSheet.read_dataframe_range self (PyStr "Sheet1") None
    PyNone PyNone PyNone PyNone
  = Raise (TypeError (not_supported_between NoneType NoneType)).
Proof.
  intros self.
  apply (validate_range_all_None self (PyStr "Sheet1")); reflexivity.
Defined.

(** ** Dates *)

(** A [datetime] is converted as its date: the time of day is dropped
    by [datetime.combine], and [delta.seconds] is 0. *)
Lemma excel_date_datetime (d : datetime) :
  excel_date (ADateTime d) = excel_date (ADate (date_of d)).
Proof. reflexivity. Qed.

(** A date is converted to its distance in days from the epoch, to
    which the float 0 is added. *)
Lemma excel_date_whole_days (d : date) :
  excel_date (ADate d)
  = Ok (VFloat (PrimFloat.add (float_of_int (toordinal d - 693594)) 0%float)).
Proof.
  unfold excel_date, day_fraction, datetime_sub, normalize, combine, min_time.
  cbn [time_of date_of second minute hour microsecond days seconds].
  change (0 + 0 * 60 + 0 * 3600 - (0 + 0 * 60 + 0 * 3600) + (0 - 0) / 1000000)
    with 0.
  change (0 mod 86400) with 0. change (0 / 86400) with 0.
  rewrite Z.add_0_r.
  change (toordinal {| year := 1899; month := 12; day := 30 |}) with 693594.
  change (PrimFloat.div (float_of_int 0) (float_of_int 86400)) with 0%float.
  reflexivity.
Qed.

(** C9. The first of January 1900 is converted to 2.0; midday of the
    day after the epoch, given as a [datetime], is converted to 1.0 and
    not to 1.5, while the same timestamp inside a [Series] gives 1.5. *)
Theorem excel_date_drops_time_of_day :
  let midday := {| date_of := {| year := 1899; month := 12; day := 31 |};
                   time_of := {| hour := 12; minute := 0; second := 0;
                                 microsecond := 0 |} |} in
  excel_date (ADate {| year := 1900; month := 1; day := 1 |})
  = Ok (VFloat 2%float) /\
  excel_date (ADateTime midday) = Ok (VFloat 1%float) /\
  excel_date (ADateTime midday) <> Ok (VFloat 1.5%float) /\
  excel_date (ASeries [midday]) = Ok (VSeries [1.5%float]).
Proof.
  intros midday. repeat split.
  intros H. vm_compute in H. discriminate H.
Qed.

(** ** Letters to index and back *)

Lemma is_upper_rank (c : ascii) :
  is_upper c = true -> 1 <= rank c <= 26.
Proof.
  unfold is_upper, in_range, rank. change (ord "A") with 65.
  intros H. apply andb_true_iff in H as [H1 H2]. lia.
Qed.

Lemma le_value_upper_nonneg (l : list ascii) :
  forallb is_upper l = true -> 0 <= le_value l.
Proof.
  induction l as [|c l IH]; cbn [forallb le_value]; [lia|].
  intros H. apply andb_true_iff in H as [Hc Hl].
  pose proof (is_upper_rank c Hc). specialize (IH Hl). lia.
Qed.

Lemma string_of_list_ascii_snoc (l : list ascii) (c : ascii) (acc : string) :
  (string_of_list_ascii (l ++ [c]) ++ acc)%string
  = (string_of_list_ascii l ++ String c acc)%string.
Proof.
  induction l as [|d l IH]; cbn; [reflexivity|]. now rewrite IH.
Qed.

(** [num2col] rebuilds a list of upper-case letters from its value. *)
Lemma num2col_loop_le_value (l : list ascii) :
  forallb is_upper l = true ->
  forall acc,
    num2col_loop (Z.to_nat (le_value (rev l))) (le_value (rev l)) acc
    = (string_of_list_ascii l ++ acc)%string.
Proof.
  induction l as [|c l IH] using rev_ind; intros Hup acc.
  - reflexivity.
  - rewrite forallb_app in Hup. apply andb_true_iff in Hup as [Hl Hc].
    cbn [forallb] in Hc. rewrite andb_true_r in Hc.
    pose proof (is_upper_rank c Hc) as Hrank.
    assert (Hv : 0 <= le_value (rev l)).
    { apply le_value_upper_nonneg. apply forallb_forall.
      intros x Hx. apply in_rev in Hx.
      now apply (proj1 (forallb_forall is_upper l) Hl). }
    rewrite rev_unit. cbn [le_value].
    set (v := le_value (rev l)) in *.
    rewrite num2col_loop_step by lia.
    assert (Hq : (rank c + 26 * v - 1) / 26 = v).
    { symmetry. apply (Z.div_unique _ 26 v (rank c - 1)); lia. }
    assert (Hr : (rank c + 26 * v - 1) mod 26 = rank c - 1).
    { symmetry. apply (Z.mod_unique _ 26 v (rank c - 1)); lia. }
    rewrite Hq, Hr. subst v. rewrite (IH Hl).
    rewrite string_of_list_ascii_snoc.
    unfold rank. change (ord "A") with 65.
    replace (65 + (ord c - 65 + 1 - 1)) with (ord c) by lia.
    now rewrite chr_ord.
Qed.

Lemma all_upper_forallb (s : string) :
  all_upper s = forallb is_upper (list_ascii_of_string s).
Proof. induction s as [|c s IH]; cbn; [reflexivity|]. now rewrite IH. Qed.

Lemma append_empty (s : string) : (s ++ EmptyString)%string = s.
Proof. induction s as [|c s IH]; cbn; [reflexivity|]. now rewrite IH. Qed.

Lemma num2col_col2num_upper (s : string) :
  all_upper s = true -> num2col_int (col2num_str s) = s.
Proof.
  intros Hup. unfold num2col_int. rewrite col2num_str_value.
  rewrite num2col_loop_le_value by (now rewrite <- all_upper_forallb).
  rewrite append_empty. apply string_of_list_ascii_of_string.
Qed.

Lemma upper_all_upper (s : string) : all_upper s = true -> upper s = s.
Proof.
  induction s as [|c s IH]; cbn; [reflexivity|].
  intros H. apply andb_true_iff in H as [Hc Hs]. rewrite (IH Hs).
  f_equal. unfold upper_char.
  unfold is_upper, in_range in *.
  apply andb_true_iff in Hc as [H1 H2].
  destruct (Z.leb_spec 97 (ord c)); [|reflexivity].
  lia.
Qed.

(** One to three upper-case letters denote a column of the sheet. *)
Lemma col2num_upper_range (s : string) :
  all_upper s = true -> 1 <= len s <= 3 ->
  1 <= col2num_str s <= 18278.
Proof.
  intros Hup Hlen.
  destruct s as [|a [|b [|c [|d s]]]]; unfold len in Hlen;
    cbn [String.length] in Hlen; try lia;
    cbn [all_upper] in Hup;
    repeat match goal with
    | H : _ && _ = true |- _ => apply andb_true_iff in H as [? ?]
    end;
    repeat match goal with
    | H : is_upper _ = true |- _ => apply is_upper_rank in H
    end;
    rewrite ?col2num_str_cons; cbn [String.length];
    change (col2num_str EmptyString) with 0;
    change (26 ^ Z.of_nat 0) with 1;
    change (26 ^ Z.of_nat 1) with 26;
    change (26 ^ Z.of_nat 2) with 676; lia.
Qed.

Lemma forallb_rev_true (p : ascii -> bool) (l : list ascii) :
  forallb p l = true <-> forallb p (rev l) = true.
Proof.
  rewrite !forallb_forall. split; intros H x Hx; apply H.
  - now apply in_rev.
  - now apply in_rev in Hx.
Qed.

Lemma is_upper_chr (r : Z) : 0 <= r < 26 -> is_upper (chr (65 + r)) = true.
Proof.
  intros Hr. unfold is_upper, in_range. rewrite ord_chr by lia.
  apply andb_true_iff. split; lia.
Qed.

(** [num2col] only produces upper-case letters. *)
Lemma num2col_loop_all_upper :
  forall n, 0 <= n -> forall acc,
    all_upper acc = true ->
    all_upper (num2col_loop (Z.to_nat n) n acc) = true.
Proof.
  intros n Hn. generalize Hn. pattern n.
  apply Z_lt_induction; [|exact Hn].
  clear n Hn. intros n IH Hn acc Hacc.
  destruct (Z.eq_dec n 0) as [->|Hnz]; [exact Hacc|].
  rewrite num2col_loop_step by lia.
  assert (0 <= (n - 1) / 26 < n).
  { split; [apply Z.div_pos; lia|].
    apply Z.div_lt_upper_bound; lia. }
  pose proof (Z.mod_pos_bound (n - 1) 26 ltac:(lia)) as Hr.
  apply IH; [lia|lia|].
  cbn [all_upper]. now rewrite is_upper_chr, Hacc.
Qed.

(** Four upper-case letters or more denote a number above 18278. *)
Lemma le_value_long (l : list ascii) :
  forallb is_upper l = true -> (4 <= List.length l)%nat ->
  18279 <= le_value l.
Proof.
  intros Hup Hlen.
  destruct l as [|a [|b [|c [|d rest]]]]; cbn [List.length] in Hlen; try lia.
  cbn [forallb] in Hup.
  repeat match goal with
  | H : _ && _ = true |- _ => apply andb_true_iff in H as [? ?]
  end.
  pose proof (le_value_upper_nonneg rest ltac:(assumption)).
  repeat match goal with
  | H : is_upper _ = true |- _ => apply is_upper_rank in H
  end.
  cbn [le_value]. lia.
Qed.

(** C1. For every integer n with 1 <= n <= 18278, [num2col] gives one
    to three upper-case letters, and [col2num] converts them back to
    exactly n. *)
Theorem col2num_num2col_roundtrip (n : Z) :
  1 <= n <= 18278 ->
  exists letters,
    num2col (PyInt n) = Ok letters /\
    all_upper letters = true /\ 1 <= len letters <= 3 /\
    col2num (PyStr letters) = Ok n.
Proof.
  intros Hn. exists (num2col_int n).
  assert (Hback : col2num_str (num2col_int n) = n).
  { unfold num2col_int. rewrite col2num_num2col_loop by lia. cbn. lia. }
  assert (Hup : all_upper (num2col_int n) = true).
  { apply num2col_loop_all_upper; [lia|reflexivity]. }
  split; [reflexivity|]. split; [exact Hup|].
  split; [|unfold col2num; now rewrite Hback].
  rewrite col2num_str_value in Hback.
  rewrite all_upper_forallb in Hup. apply forallb_rev_true in Hup.
  unfold len. rewrite <- length_list_ascii, <- length_rev.
  destruct (rev (list_ascii_of_string (num2col_int n))) as [|c l] eqn:E.
  - cbn in Hback. lia.
  - destruct (le_lt_dec 4 (List.length (c :: l))) as [Hlong|Hshort].
    + pose proof (le_value_long _ Hup Hlong). lia.
    + cbn [List.length] in *. lia.
Qed.

Lemma col2num_num2col_roundtrip_witness :
  exists letters,
    num2col (PyInt 18278) = Ok letters /\
    all_upper letters = true /\ 1 <= len letters <= 3 /\
    col2num (PyStr letters) = Ok 18278.
Proof. apply (col2num_num2col_roundtrip 18278). lia. Defined.

(** Letters to index and back, for upper-case letters.  For every
    string s of one to three upper-case ASCII letters, [col2num] gives
    a column number between 1 and 18278 and [num2col] of that number is
    s again, which is [s.upper()]. *)
Theorem num2col_col2num_roundtrip (s : string) :
  all_upper s = true -> 1 <= len s <= 3 ->
  exists n,
    col2num (PyStr s) = Ok n /\ 1 <= n <= 18278 /\
    num2col (PyInt n) = Ok (upper s) /\ upper s = s.
Proof.
  intros Hup Hlen. exists (col2num_str s).
  split; [reflexivity|]. split; [now apply col2num_upper_range|].
  rewrite (upper_all_upper s Hup). split; [|reflexivity].
  unfold num2col. now rewrite num2col_col2num_upper.
Qed.

Lemma num2col_col2num_roundtrip_witness :
  exists n,
    col2num (PyStr "ZZZ") = Ok n /\ 1 <= n <= 18278 /\
    num2col (PyInt n) = Ok (upper "ZZZ") /\ upper "ZZZ" = "ZZZ".
Proof.
  apply (num2col_col2num_roundtrip "ZZZ"); [reflexivity|].
  unfold len. cbn. lia.
Defined.

(** C6.  The round trip fails on a lower-case letter, although the code
    admits lower-case letters as columns: "a" is a letter of the column
    grammar and [_validate_column] accepts it, but [col2num] ranks it
    [ord("a") - ord("A") + 1 = 33], and [num2col(33)] is "AG", not
    "A" = [upper("a")].  In the same way the cell reference "b5"
    matches the strict pattern, and [read_cell] addresses with it
    column 34, not column 2. *)
Theorem num2col_col2num_lower_case :
  is_alpha "a" = true /\
  col2num (PyStr "a") = Ok 33 /\ num2col (PyInt 33) = Ok "AG" /\
  "AG" <> upper "a" /\
  ExcelSpreadSheet._validate_column (PyStr "a") = Ok (Some 33) /\
  ExcelSpreadSheet._cell_regex "b5" = true /\
  ExcelSpreadSheet.read_cell_address
    {| ExcelSpreadSheet._wb_open := 1;
       ExcelSpreadSheet.sheetnames := ["Sheet1"] |}
    (PyStr "Sheet1") (Some "b5") PyNone PyNone
  = Ok (Some 5, Some 34).
Proof. repeat split. discriminate. Qed.

(** ** What the conversions do outside the sheet's columns *)

Lemma has_non_alnum_or_long (s : string) :
  ExcelSpreadSheet.has_non_alnum s = true \/ 3 < len s ->
  ExcelSpreadSheet._validate_column (PyStr s) = Raise ValueError.
Proof.
  intros H. unfold ExcelSpreadSheet._validate_column.
  destruct (ExcelSpreadSheet.has_non_alnum s); [reflexivity|].
  destruct H as [H|H]; [discriminate H|].
  destruct (Z.gtb_spec (len s) 3); [reflexivity|lia].
Qed.

(** C4, as the code has it.  [col2num] raises for no string: it
    returns the number that the ranks [ord(c) - 64] denote in base 26,
    which is 0 for "", 11 for "A1" and 475254 for "ZZZZ".  The check of
    a column string is [_validate_column]'s: it raises [ValueError] for a
    string longer than three characters or with a character that is not
    alphanumeric, and it returns 0 for "" and 11 for "A1". *)
Theorem col2num_accepts_every_string (s : string) :
  col2num (PyStr s) = Ok (le_value (rev (list_ascii_of_string s))) /\
  ~ raises (col2num (PyStr s)) /\
  (ExcelSpreadSheet.has_non_alnum s = true \/ 3 < len s ->
   ExcelSpreadSheet._validate_column (PyStr s) = Raise ValueError) /\
  col2num (PyStr "") = Ok 0 /\
  col2num (PyStr "A1") = Ok 11 /\
  col2num (PyStr "ZZZZ") = Ok 475254 /\
  ExcelSpreadSheet._validate_column (PyStr "") = Ok (Some 0) /\
  ExcelSpreadSheet._validate_column (PyStr "A1") = Ok (Some 11).
Proof.
  split; [|split; [|split]].
  - unfold col2num. now rewrite col2num_str_value.
  - intros [e He]. discriminate He.
  - apply has_non_alnum_or_long.
  - repeat split.
Qed.

Lemma col2num_accepts_every_string_witness :
  ExcelSpreadSheet._validate_column (PyStr "ZZZZ") = Raise ValueError.
Proof.
  apply (col2num_accepts_every_string "ZZZZ").
  right. unfold len. cbn. lia.
Defined.

(** C4 as stated fails: the empty string, "A1" and "ZZZZ" are all
    converted to a number. *)
Lemma col2num_does_not_reject :
  ~ raises (col2num (PyStr "")) /\
  ~ raises (col2num (PyStr "A1")) /\
  ~ raises (col2num (PyStr "ZZZZ")).
Proof.
  repeat split; intros [e He]; discriminate He.
Qed.

(** C5, as the code has it.  [num2col] raises for no integer: below 1
    it returns the empty string, and above 18278 it returns letters
    that [col2num] converts back to the same number.  The bound 18278 is
    [_validate_column]'s, which raises [ValueError] above it and lets
    every smaller integer through. *)
Theorem num2col_accepts_every_integer (n : Z) :
  ~ raises (num2col (PyInt n)) /\
  (n < 1 -> num2col (PyInt n) = Ok "") /\
  (18278 < n ->
   (exists letters,
      num2col (PyInt n) = Ok letters /\ col2num (PyStr letters) = Ok n) /\
   ExcelSpreadSheet._validate_column (PyInt n) = Raise ValueError) /\
  (n <= 18278 -> ExcelSpreadSheet._validate_column (PyInt n) = Ok (Some n)).
Proof.
  split; [|split; [|split]].
  - intros [e He]. discriminate He.
  - intros Hn. unfold num2col, num2col_int.
    now rewrite num2col_loop_nonpos by lia.
  - intros Hn. split.
    + exists (num2col_int n). split; [reflexivity|].
      unfold col2num, num2col_int. f_equal.
      rewrite col2num_num2col_loop by lia. cbn. lia.
    + unfold ExcelSpreadSheet._validate_column.
      destruct (Z.gtb_spec n 18278); [reflexivity|lia].
  - intros Hn. unfold ExcelSpreadSheet._validate_column.
    destruct (Z.gtb_spec n 18278); [lia|reflexivity].
Qed.

Lemma num2col_accepts_every_integer_witness :
  (exists letters,
     num2col (PyInt 18279) = Ok letters /\
     col2num (PyStr letters) = Ok 18279) /\
  ExcelSpreadSheet._validate_column (PyInt 18279) = Raise ValueError.
Proof.
  apply (num2col_accepts_every_integer 18279). lia.
Defined.

(** C5 as stated fails: 0, a negative number and 18279 are all
    converted to a string. *)
Lemma num2col_does_not_reject :
  num2col (PyInt 0) = Ok "" /\
  num2col (PyInt (-5)) = Ok "" /\
  num2col (PyInt 18279) = Ok "AAAA" /\
  ~ raises (num2col (PyInt 0)) /\
  ~ raises (num2col (PyInt 18279)).
Proof.
  repeat split; intros [e He]; discriminate He.
Qed.


(** ** No exception of the module's own classes is ever raised *)

Lemma only_builtin_raise (A : Type) (cls : exn) : only_builtin (@raise A cls).
Proof.
  intros e He. destruct cls; cbv in He; injection He as <-; reflexivity.
Qed.

Lemma only_builtin_Ok (A : Type) (a : A) : only_builtin (Ok a).
Proof. intros e He. discriminate He. Qed.

Lemma only_builtin_TypeError (A : Type) (why : type_error) :
  only_builtin (@Raise A (TypeError why)).
Proof. intros e He. injection He as <-. reflexivity. Qed.

Lemma only_builtin_bind (A B : Type) (m : result A) (k : A -> result B) :
  only_builtin m -> (forall a, only_builtin (k a)) -> only_builtin (bind m k).
Proof.
  intros Hm Hk e He. destruct m as [a|e']; cbn in He.
  - exact (Hk a e He).
  - injection He as <-. now apply Hm.
Qed.

Create HintDb exceptions.
#[local] Hint Resolve only_builtin_raise only_builtin_Ok
  only_builtin_TypeError : exceptions.

Ltac walk :=
  repeat first
    [ solve [auto with exceptions]
    | apply only_builtin_bind; [|intros ?]
    | match goal with
      | |- only_builtin (if ?b then _ else _) => destruct b
      | |- only_builtin (match ?x with _ => _ end) => destruct x
      end ].

Lemma int_of_str_only_builtin (s : string) : only_builtin (int_of_str s).
Proof. unfold int_of_str. walk. Qed.

Lemma validate_column_only_builtin (col : pyval) :
  only_builtin (ExcelSpreadSheet._validate_column col).
Proof. unfold ExcelSpreadSheet._validate_column. walk. Qed.

Lemma validate_row_only_builtin (row : pyval) :
  only_builtin (ExcelSpreadSheet._validate_row row).
Proof.
  unfold ExcelSpreadSheet._validate_row.
  destruct row; auto with exceptions.
  apply only_builtin_bind; [apply int_of_str_only_builtin|].
  auto with exceptions.
Qed.

#[local] Hint Resolve int_of_str_only_builtin validate_column_only_builtin
  validate_row_only_builtin : exceptions.

Lemma gt_only_builtin (a b : option Z) :
  only_builtin (ExcelSpreadSheet.gt a b).
Proof. destruct a, b; cbn; auto with exceptions. Qed.

Lemma group_only_builtin m i : only_builtin (group m i).
Proof. unfold group. walk. Qed.

Lemma num2col_only_builtin (n : option Z) :
  only_builtin (ExcelSpreadSheet.num2col n).
Proof. destruct n; cbn; auto with exceptions. Qed.

Lemma getitem_only_builtin (s : string) (i : nat) : only_builtin (getitem s i).
Proof. unfold getitem. walk. Qed.

Lemma str_only_builtin (v : option Z) :
  only_builtin (ExcelSpreadSheet.str_ v).
Proof. unfold ExcelSpreadSheet.str_, str. walk. Qed.

#[local] Hint Resolve gt_only_builtin group_only_builtin
  num2col_only_builtin getitem_only_builtin str_only_builtin : exceptions.

Lemma validators_raise_only_builtin
  (self : ExcelSpreadSheet.t) (sheet : pyval) (text : option string)
  (a b c d : pyval) :
  only_builtin (ExcelSpreadSheet._validate_range text a b c d) /\
  only_builtin (ExcelSpreadSheet._validate_cellref text a b) /\
  only_builtin (ExcelSpreadSheet._validate_workbook self) /\
  only_builtin (ExcelSpreadSheet._validate_worksheet self sheet).
Proof.
  repeat split.
  - unfold ExcelSpreadSheet._validate_range. walk.
  - unfold ExcelSpreadSheet._validate_cellref. walk.
  - unfold ExcelSpreadSheet._validate_workbook. walk.
  - unfold ExcelSpreadSheet._validate_worksheet. walk.
Qed.

Lemma builtin_not_own (e : exn) : builtin e = true -> own_class e = false.
Proof. destruct e; cbn; congruence. Qed.

(** The classes that the module declares are never raised.  For
    arguments that are [None], integers or strings, no call of
    [_validate_range], [_validate_cellref], [_validate_workbook] or
    [_validate_worksheet] ends in [InvalidRangeError],
    [InvalidCellRefError], [InvalidSheetError] or [NoWorkbookError]:
    every [raise] of one of them ends in the [TypeError] of
    [Exception.__init__()] in the constructor. *)
Theorem validators_never_raise_own_class
  (self : ExcelSpreadSheet.t) (sheet : pyval) (text : option string)
  (a b c d : pyval) (e : exn) :
  own_class e = true ->
  ExcelSpreadSheet._validate_range text a b c d <> Raise e /\
  ExcelSpreadSheet._validate_cellref text a b <> Raise e /\
  ExcelSpreadSheet._validate_workbook self <> Raise e /\
  ExcelSpreadSheet._validate_worksheet self sheet <> Raise e.
Proof.
  intros Hown.
  destruct (validators_raise_only_builtin self sheet text a b c d)
    as (Hrange & Hcell & Hbook & Hsheet).
  repeat split; intros Hraise;
    [ apply Hrange in Hraise | apply Hcell in Hraise
    | apply Hbook in Hraise | apply Hsheet in Hraise ];
    apply builtin_not_own in Hraise; congruence.
Qed.

Lemma validators_never_raise_own_class_witness :
  ExcelSpreadSheet._validate_range None
    (PyInt 3) (PyInt 1) (PyInt 1) (PyInt 2)
  <> Raise InvalidRangeError /\
  ExcelSpreadSheet._validate_cellref None (PyInt 3) (PyInt 1)
  <> Raise InvalidRangeError /\
  ExcelSpreadSheet._validate_workbook
    {| ExcelSpreadSheet._wb_open := 0; ExcelSpreadSheet.sheetnames := [] |}
  <> Raise InvalidRangeError /\
  ExcelSpreadSheet._validate_worksheet
    {| ExcelSpreadSheet._wb_open := 0; ExcelSpreadSheet.sheetnames := [] |}
    (PyStr "Sheet1")
  <> Raise InvalidRangeError.
Proof.
  apply (validators_never_raise_own_class
           {| ExcelSpreadSheet._wb_open := 0;
              ExcelSpreadSheet.sheetnames := [] |}
           (PyStr "Sheet1") None (PyInt 3) (PyInt 1) (PyInt 1) (PyInt 2)
           InvalidRangeError).
  reflexivity.
Defined.

(** ** Whole-column ranges *)

Lemma whole_columns_group5 (text : string) (g : match_groups) :
  ExcelSpreadSheet.whole_columns text = Some g ->
  exists cols, group5 g = Some cols.
Proof.
  unfold ExcelSpreadSheet.whole_columns, obind.
  destruct (letters_1_3 text) as [[col_1 s1]|]; [|discriminate].
  destruct (colon s1) as [s2|]; [|discriminate].
  destruct (letters_1_3 s2) as [[col_2 s3]|]; [|discriminate].
  destruct (at_end s3); [|discriminate].
  intros H. injection H as <-. cbn. eauto.
Qed.

(** A text of the form letters:letters is returned as it is; the two
    columns are not compared, so that "C:A" is a valid range. *)
Theorem validate_range_whole_columns (text : string) (g : match_groups) :
  ExcelSpreadSheet.bounded_range text = None ->
  ExcelSpreadSheet.whole_columns text = Some g ->
  ExcelSpreadSheet._validate_range (Some text) PyNone PyNone PyNone PyNone
  = Ok text.
Proof.
  intros Hb Hw. destruct (whole_columns_group5 text g Hw) as [cols Hcols].
  unfold ExcelSpreadSheet._validate_range.
  cbn [ExcelSpreadSheet._validate_column ExcelSpreadSheet._validate_row
       bind forallb ExcelSpreadSheet.absent andb].
  unfold ExcelSpreadSheet._range_regex. rewrite Hb, Hw.
  cbn [group bind ExcelSpreadSheet.absent]. rewrite Hcols. reflexivity.
Qed.

Lemma validate_range_whole_columns_witness :
  ExcelSpreadSheet._validate_range (Some "C:A") PyNone PyNone PyNone PyNone
  = Ok "C:A".
Proof.
  apply (validate_range_whole_columns "C:A"
           {| group1 := None; group2 := None; group3 := None;
              group4 := None; group5 := Some "C:A" |}); reflexivity.
Defined.

(** ** The round trips beyond the sheet's width *)

(** [col2num] undoes [num2col] on every positive integer, also above
    18278. *)
Theorem col2num_num2col_positive (n : Z) :
  1 <= n -> col2num (PyStr (num2col_int n)) = Ok n.
Proof.
  intros Hn. unfold col2num, num2col_int. f_equal.
  rewrite col2num_num2col_loop by lia. cbn. lia.
Qed.

Lemma col2num_num2col_positive_witness :
  col2num (PyStr (num2col_int 475254)) = Ok 475254.
Proof. apply (col2num_num2col_positive 475254). lia. Defined.

Lemma is_alpha_cases (c : ascii) :
  is_alpha c = true ->
  (is_upper c = true /\ upper_char c = c) \/
  (is_upper c = false /\ rank (upper_char c) = rank c - 32).
Proof.
  unfold is_alpha, is_upper, upper_char, rank, in_range.
  intros H. apply orb_true_iff in H as [H|H];
    apply andb_true_iff in H as [H1 H2].
  - left. rewrite H1, H2. split; [reflexivity|].
    destruct (Z.leb_spec 97 (ord c)); [lia|reflexivity].
  - right. rewrite H1, H2. cbn [andb].
    rewrite ord_chr by lia. split; [|lia].
    destruct (Z.leb_spec (ord c) 90); [lia|]. apply andb_false_r.
Qed.

Lemma le_value_upper_char (l : list ascii) :
  forallb is_alpha l = true ->
  le_value (map upper_char l) <= le_value l /\
  (le_value (map upper_char l) = le_value l -> forallb is_upper l = true).
Proof.
  induction l as [|c l IH]; cbn [forallb map le_value].
  - intros _. split; [lia|reflexivity].
  - intros H. apply andb_true_iff in H as [Hc Hl].
    destruct (IH Hl) as [Hle Heq].
    destruct (is_alpha_cases c Hc) as [[Hu Hc']|[Hu Hc']].
    + rewrite Hc', Hu. split; [lia|]. intros E. apply Heq. lia.
    + rewrite Hc'. split; [lia|]. intros E. lia.
Qed.

Lemma list_ascii_of_upper (s : string) :
  list_ascii_of_string (upper s) = map upper_char (list_ascii_of_string s).
Proof. induction s as [|c s IH]; cbn; [reflexivity|]. now rewrite IH. Qed.

Lemma all_alpha_forallb (s : string) :
  all_alpha s = forallb is_alpha (list_ascii_of_string s).
Proof. induction s as [|c s IH]; cbn; [reflexivity|]. now rewrite IH. Qed.

Lemma le_value_alpha_nonneg (l : list ascii) :
  forallb is_alpha l = true -> 0 <= le_value l.
Proof.
  induction l as [|c l IH]; cbn [forallb le_value]; [lia|].
  intros H. apply andb_true_iff in H as [Hc Hl]. specialize (IH Hl).
  assert (1 <= rank c).
  { unfold is_alpha, in_range, rank in *. change (ord "A") with 65.
    apply orb_true_iff in Hc as [Hc|Hc];
      apply andb_true_iff in Hc as [H1 H2]; lia. }
  lia.
Qed.

(** On the strings of letters, of any length, the round trip through
    [col2num] and [num2col] gives [s.upper()] exactly when s has no
    lower-case letter. *)
Theorem num2col_col2num_upper_iff (s : string) :
  all_alpha s = true ->
  (num2col_int (col2num_str s) = upper s <-> all_upper s = true).
Proof.
  intros Halpha. split.
  - intros Heq.
    rewrite all_alpha_forallb in Halpha.
    apply forallb_rev_true in Halpha.
    pose proof (le_value_alpha_nonneg _ Halpha) as Hpos.
    pose proof (col2num_num2col_loop (col2num_str s)) as Hback.
    rewrite col2num_str_value in Hback at 1. specialize (Hback Hpos "").
    fold (num2col_int (col2num_str s)) in Hback. rewrite Heq in Hback.
    cbn [String.length] in Hback. change (26 ^ Z.of_nat 0) with 1 in Hback.
    change (col2num_str "") with 0 in Hback.
    rewrite !col2num_str_value, list_ascii_of_upper, <- map_rev in Hback.
    rewrite all_upper_forallb. apply forallb_rev_true.
    apply (le_value_upper_char _ Halpha). lia.
  - intros Hup. rewrite (upper_all_upper s Hup).
    now apply num2col_col2num_upper.
Qed.

Lemma num2col_col2num_upper_iff_witness :
  num2col_int (col2num_str "AbC") = upper "AbC" <-> all_upper "AbC" = true.
Proof. apply (num2col_col2num_upper_iff "AbC"). reflexivity. Defined.

(** ** Printing an integer and reading it back *)

Lemma int_digits_uint (d : Decimal.uint) :
  forall after_digit acc,
    int_digits (NilEmpty.string_of_uint d) after_digit acc
    = match d with
      | Decimal.Nil => if after_digit then Some acc else None
      | _ => Some (uint_value d acc)
      end.
Proof.
  induction d; intros after_digit acc; cbn [NilEmpty.string_of_uint];
    try reflexivity;
    (change (int_digits (String ?c ?s) after_digit acc)
       with (int_digits s true (acc * 10 + (ord c - 48)));
     rewrite IHd; destruct d; reflexivity).
Qed.

Lemma uint_value_acc (d : Decimal.uint) (p : positive) :
  Z.pos (Pos.of_uint_acc d p) = uint_value d (Z.pos p).
Proof.
  revert p. induction d; intros p; cbn [Pos.of_uint_acc uint_value];
    try reflexivity; rewrite IHd; f_equal; lia.
Qed.

Lemma uint_value_of_uint (d : Decimal.uint) :
  uint_value d 0 = Z.of_N (Pos.of_uint d).
Proof.
  induction d; cbn [Pos.of_uint uint_value]; try reflexivity;
    try (now rewrite <- IHd);
    cbn [Z.of_N]; now rewrite uint_value_acc.
Qed.

Lemma uint_value_to_uint (p : positive) :
  uint_value (Pos.to_uint p) 0 = Z.pos p.
Proof.
  rewrite uint_value_of_uint, DecimalPos.Unsigned.of_to. reflexivity.
Qed.

Lemma all_digits_uint (d : Decimal.uint) :
  all_digits (NilEmpty.string_of_uint d) = true.
Proof. induction d; cbn; auto. Qed.

Lemma is_digit_no_space (c : ascii) : is_digit c = true -> is_space c = false.
Proof.
  unfold is_digit, is_space, in_range. intros H.
  apply andb_true_iff in H as [H1 H2].
  repeat (apply orb_false_iff; split); try apply andb_false_iff; lia.
Qed.

Lemma all_digits_no_space (s : string) :
  all_digits s = true -> no_space s = true.
Proof.
  induction s as [|c s IH]; cbn; [reflexivity|].
  intros H. apply andb_true_iff in H as [Hc Hs].
  now rewrite (is_digit_no_space c Hc), IH.
Qed.

Lemma lstrip_no_space (s : string) : no_space s = true -> lstrip s = s.
Proof.
  destruct s as [|c s]; [reflexivity|]. cbn [no_space].
  intros H. apply andb_true_iff in H as [Hc _].
  unfold lstrip. cbn [span]. apply negb_true_iff in Hc. now rewrite Hc.
Qed.

Lemma no_space_forallb (s : string) :
  no_space s = forallb (fun c => negb (is_space c)) (list_ascii_of_string s).
Proof. induction s as [|c s IH]; cbn; [reflexivity|]. now rewrite IH. Qed.

Lemma no_space_reversed (s : string) :
  no_space s = true -> no_space (reversed s) = true.
Proof.
  rewrite !no_space_forallb. unfold reversed.
  rewrite list_ascii_of_string_of_list_ascii. intros H.
  apply forallb_forall. intros x Hx. apply in_rev in Hx.
  now apply (proj1 (forallb_forall _ _) H).
Qed.

Lemma reversed_involutive (s : string) : reversed (reversed s) = s.
Proof.
  unfold reversed. rewrite list_ascii_of_string_of_list_ascii, rev_involutive.
  apply string_of_list_ascii_of_string.
Qed.

Lemma strip_no_space (s : string) : no_space s = true -> strip s = s.
Proof.
  intros H. unfold strip. rewrite (lstrip_no_space s H).
  rewrite (lstrip_no_space _ (no_space_reversed s H)).
  apply reversed_involutive.
Qed.

Lemma count_digits_all_digits (s : string) :
  all_digits s = true -> count_digits s = Z.of_nat (String.length s).
Proof.
  induction s as [|c s IH]; cbn [all_digits count_digits String.length];
    [reflexivity|].
  intros H. apply andb_true_iff in H as [Hc Hs].
  rewrite Hc, (IH Hs). lia.
Qed.

Lemma int_of_str_uint (d : Decimal.uint) :
  d <> Decimal.Nil ->
  Z.of_nat (String.length (NilEmpty.string_of_uint d)) <= int_max_str_digits ->
  int_of_str (NilEmpty.string_of_uint d) = Ok (uint_value d 0) /\
  int_of_str (String "-" (NilEmpty.string_of_uint d)) = Ok (- uint_value d 0).
Proof.
  intros Hd Hsize. unfold int_of_str.
  pose proof (all_digits_no_space _ (all_digits_uint d)) as Hns.
  pose proof (count_digits_all_digits _ (all_digits_uint d)) as Hcount.
  rewrite (strip_no_space _ Hns).
  rewrite (strip_no_space (String "-" _))
    by (cbn [no_space]; now rewrite Hns).
  assert (Hlimit : (int_max_str_digits
                    <? count_digits (NilEmpty.string_of_uint d)) = false).
  { rewrite Hcount. apply Z.ltb_ge. exact Hsize. }
  split.
  - rewrite Hlimit.
    destruct d as [|d|d|d|d|d|d|d|d|d|d]; try (now contradiction Hd);
      match goal with
      | |- context [NilEmpty.string_of_uint ?u] =>
          cbn [NilEmpty.string_of_uint]; cbv iota;
          change (String _ (NilEmpty.string_of_uint d))
            with (NilEmpty.string_of_uint u);
          rewrite (int_digits_uint u); reflexivity
      end.
  - cbv beta iota. rewrite int_digits_uint.
    change (count_digits (String "-" (NilEmpty.string_of_uint d)))
      with (0 + count_digits (NilEmpty.string_of_uint d)).
    rewrite Z.add_0_l, Hlimit.
    destruct d; try (now contradiction Hd); reflexivity.
Qed.

(** *** The number of digits of an integer *)

Lemma uint_value_lower (d : Decimal.uint) :
  forall acc, 0 <= acc ->
    acc * 10 ^ Z.of_nat (String.length (NilEmpty.string_of_uint d))
    <= uint_value d acc.
Proof.
  induction d; intros acc Hacc;
    cbn [NilEmpty.string_of_uint String.length uint_value].
  1: change (10 ^ Z.of_nat 0) with 1; lia.
  all: rewrite Nat2Z.inj_succ, Z.pow_succ_r by lia;
    match goal with
    | |- _ <= uint_value _ ?acc' =>
        pose proof (IHd acc' ltac:(lia)) as IH
    end;
    match goal with
    | |- context [10 ^ ?e] =>
        pose proof (Z.pow_nonneg 10 e ltac:(lia)); nia
    end.
Qed.

(** The decimal digits of a positive number do not start with 0. *)
Lemma to_uint_head (p : positive) (d : Decimal.uint) :
  Pos.to_uint p <> Decimal.D0 d.
Proof.
  intros E.
  pose proof (DecimalPos.Unsigned.to_of (Pos.to_uint p)) as Hnorm.
  rewrite DecimalPos.Unsigned.of_to in Hnorm. cbn [N.to_uint] in Hnorm.
  unfold Decimal.unorm in Hnorm.
  destruct (Decimal.nzhead (Pos.to_uint p)) eqn:Hhead;
    try (rewrite E in Hnorm; discriminate Hnorm).
  - apply (DecimalPos.Unsigned.to_uint_nonzero p).
    rewrite Hnorm. reflexivity.
  - rewrite E in Hnorm. rewrite <- Hnorm in Hhead.
    exact (DecimalFacts.nzhead_nonzero _ _ Hhead).
Qed.

Lemma to_uint_length (p : positive) (n : Z) :
  0 <= n -> Z.pos p < 10 ^ n ->
  Z.of_nat (String.length (NilEmpty.string_of_uint (Pos.to_uint p))) <= n.
Proof.
  intros Hn Hp.
  pose proof (uint_value_to_uint p) as Hvalue.
  pose proof (to_uint_head p) as Hhead.
  pose proof (DecimalPos.Unsigned.to_uint_nonnil p) as Hnil.
  destruct (Pos.to_uint p) as [|d|d|d|d|d|d|d|d|d|d];
    try (now contradiction Hnil);
    try (now contradiction (Hhead d));
    cbn [NilEmpty.string_of_uint String.length uint_value] in *;
    rewrite Nat2Z.inj_succ;
    match type of Hvalue with
    | uint_value _ ?acc = _ =>
        pose proof (uint_value_lower d acc ltac:(lia)) as Hlow
    end;
    set (e := Z.of_nat (String.length (NilEmpty.string_of_uint d))) in *;
    assert (He : 0 <= e) by (subst e; lia);
    apply Z.nlt_ge; intros Hgt;
    pose proof (Z.pow_le_mono_r 10 n e ltac:(lia) ltac:(lia)) as Hpow;
    pose proof (Z.pow_pos_nonneg 10 n ltac:(lia) Hn);
    nia.
Qed.

Lemma decimal_length_below (z n : Z) :
  1 <= n -> Z.abs z < 10 ^ n ->
  Z.of_nat (String.length (decimal (Z.abs z))) <= n.
Proof.
  intros Hn Hz. unfold decimal.
  destruct z as [|p|p]; cbn [Z.abs Z.to_int NilZero.string_of_int] in *;
    [exact Hn| |];
    pose proof (DecimalPos.Unsigned.to_uint_nonnil p) as Hnil;
    pose proof (to_uint_length p n ltac:(lia) Hz);
    unfold NilZero.string_of_uint;
    destruct (Pos.to_uint p); try (now contradiction Hnil); assumption.
Qed.

Lemma int_max_str_digits_positive : 1 <= int_max_str_digits.
Proof. unfold int_max_str_digits. lia. Qed.

(** An integer below 10^4300 in absolute value has at most 4300
    digits. *)
Lemma decimal_length (z : Z) :
  Z.abs z < 10 ^ int_max_str_digits ->
  Z.of_nat (String.length (decimal (Z.abs z))) <= int_max_str_digits.
Proof. apply decimal_length_below, int_max_str_digits_positive. Qed.

Lemma str_decimal (z : Z) :
  Z.abs z < 10 ^ int_max_str_digits -> str z = Ok (decimal z).
Proof.
  intros Hz. unfold str.
  pose proof (decimal_length z Hz) as Hlen.
  destruct (Z.ltb_spec int_max_str_digits
              (Z.of_nat (String.length (decimal (Z.abs z)))));
    [lia|reflexivity].
Qed.

Lemma int_of_str_decimal (z : Z) :
  Z.abs z < 10 ^ int_max_str_digits -> int_of_str (decimal z) = Ok z.
Proof.
  intros Hz. pose proof (decimal_length z Hz) as Hlen. clear Hz.
  revert Hlen.
  unfold decimal. destruct z as [|p|p]; [reflexivity| |];
    cbn [Z.abs Z.to_int NilZero.string_of_int];
    pose proof (DecimalPos.Unsigned.to_uint_nonnil p) as Hnil;
    unfold NilZero.string_of_uint;
    destruct (Pos.to_uint p) eqn:E; try (now contradiction Hnil);
    rewrite <- E; rewrite <- E in Hnil; intros Hlen.
  all: first
    [ rewrite (proj1 (int_of_str_uint _ Hnil Hlen)), uint_value_to_uint;
      reflexivity
    | rewrite (proj2 (int_of_str_uint _ Hnil Hlen)), uint_value_to_uint;
      reflexivity ].
Qed.



(** ** The text built from co-ordinates is a valid range text *)

Lemma span_app (p : ascii -> bool) (s1 s2 : string) :
  all_chars p s1 = true -> stops p s2 = true ->
  span p (s1 ++ s2) = (s1, s2).
Proof.
  intros H1 H2. induction s1 as [|c s1 IH].
  - destruct s2 as [|c s2]; [reflexivity|]. cbn in *.
    apply negb_true_iff in H2. now rewrite H2.
  - cbn in *. apply andb_true_iff in H1 as [Hc H1].
    now rewrite Hc, (IH H1).
Qed.

Lemma all_upper_all_alpha (s : string) :
  all_upper s = true -> all_chars is_alpha s = true.
Proof.
  induction s as [|c s IH]; cbn [all_upper all_chars]; [reflexivity|].
  intros H. apply andb_true_iff in H as [Hc Hs]. rewrite (IH Hs).
  unfold is_alpha. unfold is_upper in Hc. now rewrite Hc.
Qed.

Lemma all_digits_all_chars (s : string) :
  all_digits s = all_chars is_digit s.
Proof.
  induction s as [|c s IH]; cbn [all_digits all_chars]; [reflexivity|].
  now rewrite IH.
Qed.

Lemma is_digit_not_alpha (c : ascii) : is_digit c = true -> is_alpha c = false.
Proof.
  unfold is_digit, is_alpha, in_range. intros H.
  apply andb_true_iff in H as [H1 H2].
  apply orb_false_iff; split; apply andb_false_iff; lia.
Qed.

(** The text of a number that is not negative: digits, at least one. *)
Lemma decimal_digits (z : Z) :
  0 <= z -> all_digits (decimal z) = true /\ 1 <= len (decimal z).
Proof.
  intros Hz. unfold decimal. destruct z as [|p|p]; [now split| |lia].
  cbn [Z.to_int NilZero.string_of_int].
  pose proof (DecimalPos.Unsigned.to_uint_nonnil p) as Hnil.
  unfold NilZero.string_of_uint.
  destruct (Pos.to_uint p) eqn:E; try (now contradiction Hnil);
    rewrite <- E; (split; [apply all_digits_uint|]);
    rewrite E; unfold len; cbn [NilEmpty.string_of_uint String.length]; lia.
Qed.

Lemma letters_1_3_app (letters rest : string) :
  all_upper letters = true -> 1 <= len letters <= 3 ->
  stops is_alpha rest = true ->
  letters_1_3 (letters ++ rest) = Some (letters, rest).
Proof.
  intros Hup Hlen Hrest. unfold letters_1_3.
  rewrite (span_app _ _ _ (all_upper_all_alpha _ Hup) Hrest).
  destruct (Z.leb_spec 1 (len letters)); [|lia].
  destruct (Z.leb_spec (len letters) 3); [reflexivity|lia].
Qed.

Lemma digits_1_app (digits rest : string) :
  all_digits digits = true -> 1 <= len digits ->
  stops is_digit rest = true ->
  digits_1 (digits ++ rest) = Some (digits, rest).
Proof.
  intros Hd Hlen Hrest. unfold digits_1.
  rewrite all_digits_all_chars in Hd. rewrite (span_app _ _ _ Hd Hrest).
  destruct (Z.leb_spec 1 (len digits)); [reflexivity|lia].
Qed.

Lemma stops_alpha_digits (digits rest : string) :
  all_digits digits = true -> 1 <= len digits ->
  stops is_alpha (digits ++ rest) = true.
Proof.
  destruct digits as [|c digits]; unfold len; cbn; [lia|].
  intros H _. apply andb_true_iff in H as [Hc _].
  now rewrite (is_digit_not_alpha c Hc).
Qed.

(** The letters of a column of the sheet. *)
Lemma num2col_int_letters (n : Z) :
  1 <= n <= 18278 ->
  all_upper (num2col_int n) = true /\ 1 <= len (num2col_int n) <= 3 /\
  col2num_str (num2col_int n) = n.
Proof.
  intros Hn.
  assert (Hback : col2num_str (num2col_int n) = n).
  { unfold num2col_int. rewrite col2num_num2col_loop by lia. cbn. lia. }
  assert (Hup : all_upper (num2col_int n) = true).
  { apply num2col_loop_all_upper; [lia|reflexivity]. }
  split; [exact Hup|]. split; [|exact Hback].
  rewrite col2num_str_value in Hback.
  rewrite all_upper_forallb in Hup. apply forallb_rev_true in Hup.
  unfold len. rewrite <- length_list_ascii, <- length_rev.
  destruct (rev (list_ascii_of_string (num2col_int n))) as [|c l] eqn:E.
  - cbn in Hback. lia.
  - destruct (le_lt_dec 4 (List.length (c :: l))) as [Hlong|Hshort].
    + pose proof (le_value_long _ Hup Hlong). lia.
    + cbn [List.length] in *. lia.
Qed.

Lemma all_upper_alnum (s : string) :
  all_upper s = true -> ExcelSpreadSheet.has_non_alnum s = false.
Proof.
  induction s as [|c s IH]; cbn; [reflexivity|].
  intros H. apply andb_true_iff in H as [Hc Hs]. rewrite (IH Hs).
  unfold is_alnum, is_alpha. unfold is_upper in Hc. now rewrite Hc.
Qed.

Lemma validate_column_letters (n : Z) :
  1 <= n <= 18278 ->
  ExcelSpreadSheet._validate_column (PyStr (num2col_int n)) = Ok (Some n).
Proof.
  intros Hn. destruct (num2col_int_letters n Hn) as (Hup & Hlen & Hback).
  unfold ExcelSpreadSheet._validate_column.
  rewrite (all_upper_alnum _ Hup).
  destruct (Z.gtb_spec (len (num2col_int n)) 3); [lia|].
  change (ExcelSpreadSheet.col2num (num2col_int n))
    with (col2num_str (num2col_int n)).
  rewrite Hback. destruct (Z.gtb_spec n 18278); [lia|reflexivity].
Qed.

Lemma bounded_range_canonical (c1 c2 r1 r2 : Z) :
  1 <= c1 <= 18278 -> 1 <= c2 <= 18278 -> 0 <= r1 -> 0 <= r2 ->
  ExcelSpreadSheet.bounded_range
    (num2col_int c1 ++ decimal r1 ++ ":" ++ num2col_int c2 ++ decimal r2)
  = Some {| group1 := Some (num2col_int c1); group2 := Some (decimal r1);
            group3 := Some (num2col_int c2); group4 := Some (decimal r2);
            group5 := None |}.
Proof.
  intros Hc1 Hc2 Hr1 Hr2.
  destruct (num2col_int_letters c1 Hc1) as (Hup1 & Hlen1 & _).
  destruct (num2col_int_letters c2 Hc2) as (Hup2 & Hlen2 & _).
  destruct (decimal_digits r1 Hr1) as [Hd1 Hl1].
  destruct (decimal_digits r2 Hr2) as [Hd2 Hl2].
  unfold ExcelSpreadSheet.bounded_range.
  rewrite (letters_1_3_app _ _ Hup1 Hlen1)
    by (now apply stops_alpha_digits).
  cbn [obind]. rewrite (digits_1_app _ _ Hd1 Hl1) by reflexivity.
  cbn [obind append colon].
  rewrite <- (append_empty (decimal r2)) at 1.
  rewrite (letters_1_3_app _ _ Hup2 Hlen2)
    by (now apply stops_alpha_digits).
  cbn [obind]. rewrite (digits_1_app _ _ Hd2 Hl2) by reflexivity.
  reflexivity.
Qed.

(** The range built from four integer co-ordinates in order, the columns
    within the sheet's width and the rows of at most 4300 digits
    (|row| < 10^4300, the interpreter's default limit on the digits of
    an integer turned into text): the letters and the decimal text of
    each corner, joined by a colon. *)
Lemma validate_range_of_coordinates (startrow endrow startcol endcol : Z) :
  startcol <= endcol <= 18278 -> startrow <= endrow ->
  Z.abs startrow < 10 ^ int_max_str_digits ->
  Z.abs endrow < 10 ^ int_max_str_digits ->
  ExcelSpreadSheet._validate_range None
    (PyInt startrow) (PyInt endrow) (PyInt startcol) (PyInt endcol)
  = Ok (num2col_int startcol ++ decimal startrow ++ ":"
        ++ num2col_int endcol ++ decimal endrow)%string.
Proof.
  intros Hc Hr Hs He.
  pose proof (str_decimal startrow Hs) as Hstart.
  pose proof (str_decimal endrow He) as Hend. clear Hs He.
  unfold ExcelSpreadSheet._validate_range.
  cbn [ExcelSpreadSheet._validate_column ExcelSpreadSheet._validate_row].
  destruct (Z.gtb_spec startcol 18278); [lia|].
  destruct (Z.gtb_spec endcol 18278); [lia|].
  cbn [bind forallb existsb ExcelSpreadSheet.absent andb orb negb
       ExcelSpreadSheet.gt].
  destruct (Z.gtb_spec startcol endcol); [lia|].
  destruct (Z.gtb_spec startrow endrow); [lia|].
  cbn [bind ExcelSpreadSheet.num2col ExcelSpreadSheet.str_].
  rewrite Hstart. cbn [bind]. rewrite Hend. reflexivity.
Qed.

(** The text of a range on the sheet, read back: columns within the
    sheet, rows that are not negative and of at most 4300 digits. *)
Lemma validate_range_of_text (startrow endrow startcol endcol : Z) :
  1 <= startcol <= 18278 -> 1 <= endcol <= 18278 ->
  0 <= startrow < 10 ^ int_max_str_digits ->
  0 <= endrow < 10 ^ int_max_str_digits ->
  ExcelSpreadSheet._validate_range
    (Some (num2col_int startcol ++ decimal startrow ++ ":"
           ++ num2col_int endcol ++ decimal endrow)%string)
    PyNone PyNone PyNone PyNone
  = (if startcol >? endcol
     then Raise (TypeError descriptor_needs_argument)
     else if startrow >? endrow
     then Raise (TypeError descriptor_needs_argument)
     else Ok (num2col_int startcol ++ decimal startrow ++ ":"
              ++ num2col_int endcol ++ decimal endrow)%string).
Proof.
  intros Hs He Hsr Her.
  assert (Hstart : int_of_str (decimal startrow) = Ok startrow)
    by (apply int_of_str_decimal; lia).
  assert (Hend : int_of_str (decimal endrow) = Ok endrow)
    by (apply int_of_str_decimal; lia).
  assert (Hsr' : 0 <= startrow) by lia.
  assert (Her' : 0 <= endrow) by lia. clear Hsr Her.
  unfold ExcelSpreadSheet._validate_range.
  cbn [ExcelSpreadSheet._validate_column ExcelSpreadSheet._validate_row
       bind forallb ExcelSpreadSheet.absent andb].
  unfold ExcelSpreadSheet._range_regex.
  rewrite bounded_range_canonical by lia.
  cbn [group bind group1 group2 group3 group4 group5
       ExcelSpreadSheet.absent negb ExcelSpreadSheet.of_group].
  rewrite !validate_column_letters by lia. cbn [bind].
  unfold ExcelSpreadSheet._validate_row. rewrite Hstart, Hend.
  cbn [bind ExcelSpreadSheet.gt].
  destruct (Z.gtb_spec startcol endcol); [reflexivity|].
  cbn [bind]. destruct (Z.gtb_spec startrow endrow); reflexivity.
Qed.

(** The canonical text of a range.  Four integer co-ordinates in order,
    the columns within the sheet's width (startcol <= endcol <= 18278)
    and the rows of at most 4300 digits (|row| < 10^4300, beyond which
    [str(row)] raises [ValueError] under the interpreter's default digit
    limit): [_validate_range] returns the letters of the start column,
    the decimal text of the start row, a colon, the letters of the end
    column and the decimal text of the end row. *)
Theorem validate_range_coordinates (startrow endrow startcol endcol : Z) :
  startcol <= endcol <= 18278 -> startrow <= endrow ->
  Z.abs startrow < 10 ^ int_max_str_digits ->
  Z.abs endrow < 10 ^ int_max_str_digits ->
  ExcelSpreadSheet._validate_range None
    (PyInt startrow) (PyInt endrow) (PyInt startcol) (PyInt endcol)
  = Ok (num2col_int startcol ++ decimal startrow ++ ":"
        ++ num2col_int endcol ++ decimal endrow)%string.
Proof. exact (validate_range_of_coordinates startrow endrow startcol endcol). Qed.

Lemma validate_range_coordinates_witness :
  ExcelSpreadSheet._validate_range None
    (PyInt 2) (PyInt 10) (PyInt 27) (PyInt 18278)
  = Ok "AA2:ZZZ10".
Proof.
  apply (validate_range_coordinates 2 10 27 18278);
    [lia|lia|reflexivity|reflexivity].
Defined.

(** Idempotence of the range validation.  For co-ordinates within the
    sheet (columns 1 <= startcol <= endcol <= 18278, rows
    0 <= startrow <= endrow) and rows of at most 4300 digits
    (endrow < 10^4300, the interpreter's default limit on the digits of
    an integer turned into text or read from it), the text that
    [_validate_range] builds from them is itself accepted by
    [_validate_range] as a range text, and returned unchanged. *)
Theorem validate_range_idempotent (startrow endrow startcol endcol : Z) :
  1 <= startcol <= endcol -> endcol <= 18278 ->
  0 <= startrow <= endrow -> endrow < 10 ^ int_max_str_digits ->
  exists text,
    ExcelSpreadSheet._validate_range None
      (PyInt startrow) (PyInt endrow) (PyInt startcol) (PyInt endcol)
    = Ok text /\
    ExcelSpreadSheet._validate_range (Some text) PyNone PyNone PyNone PyNone
    = Ok text.
Proof.
  intros Hc He Hr Hlimit.
  exists (num2col_int startcol ++ decimal startrow ++ ":"
          ++ num2col_int endcol ++ decimal endrow)%string.
  split.
  - apply validate_range_of_coordinates; lia.
  - rewrite validate_range_of_text by lia.
    destruct (Z.gtb_spec startcol endcol); [lia|].
    destruct (Z.gtb_spec startrow endrow); [lia|].
    reflexivity.
Qed.

Lemma validate_range_idempotent_witness :
  exists text,
    ExcelSpreadSheet._validate_range None
      (PyInt 2) (PyInt 120) (PyInt 1) (PyInt 703)
    = Ok text /\
    ExcelSpreadSheet._validate_range (Some text) PyNone PyNone PyNone PyNone
    = Ok text.
Proof.
  apply (validate_range_idempotent 2 120 1 703); [lia|lia|lia|reflexivity].
Defined.

(** ** Colours *)

Lemma byte_cases (P : Z -> Prop) :
  (forall a : ascii, P (ord a)) -> forall x, 0 <= x < 256 -> P x.
Proof.
  intros H x Hx. rewrite <- (ord_chr x Hx). apply H.
Qed.

Lemma format_02x_byte (x : Z) :
  0 <= x < 256 ->
  format_02x x
  = String (hex_char (x / 16)) (String (hex_char (x mod 16)) EmptyString).
Proof.
  revert x. apply byte_cases.
  intros [[] [] [] [] [] [] [] []]; vm_compute; reflexivity.
Qed.

Lemma hex_char_ord (d : Z) :
  0 <= d < 16 -> ord (hex_char d) = if d <? 10 then 48 + d else 87 + d.
Proof.
  intros Hd. unfold hex_char. apply ord_chr.
  destruct (Z.ltb_spec d 10); lia.
Qed.

Lemma hex_digit_value_char (d : Z) :
  0 <= d < 16 -> hex_digit_value (hex_char d) = Some d.
Proof.
  intros Hd. unfold hex_digit_value, is_digit, in_range.
  rewrite (hex_char_ord d Hd).
  destruct (Z.ltb_spec d 10).
  - destruct (Z.leb_spec 48 (48 + d)); [|lia].
    destruct (Z.leb_spec (48 + d) 57); [|lia].
    cbn [andb]. f_equal. lia.
  - destruct (Z.leb_spec (87 + d) 57); [lia|].
    rewrite andb_false_r.
    destruct (Z.leb_spec 97 (87 + d)); [|lia].
    destruct (Z.leb_spec (87 + d) 102); [|lia].
    cbn [andb]. f_equal. lia.
Qed.

Lemma hex_char_no_space (d : Z) :
  0 <= d < 16 -> is_space (hex_char d) = false.
Proof.
  intros Hd. unfold is_space, in_range. rewrite (hex_char_ord d Hd).
  destruct (Z.ltb_spec d 10);
    repeat (apply orb_false_iff; split); try apply andb_false_iff; lia.
Qed.

(** Two hexadecimal digits are read as one byte. *)
Lemma int16_digits_byte (x : Z) (rest : string) (after_digit : bool) (acc : Z) :
  0 <= x < 256 ->
  int16_digits (format_02x x ++ rest) after_digit acc
  = int16_digits rest true (acc * 256 + x).
Proof.
  intros Hx. rewrite (format_02x_byte x Hx).
  pose proof (Z.div_mod x 16 ltac:(lia)) as Hdm.
  pose proof (Z.mod_pos_bound x 16 ltac:(lia)) as Hr.
  assert (Hq : 0 <= x / 16 < 16).
  { split; [apply Z.div_pos; lia|apply Z.div_lt_upper_bound; lia]. }
  cbn [append int16_digits].
  rewrite !hex_digit_value_char by assumption.
  f_equal. lia.
Qed.

Lemma no_space_app (s1 s2 : string) :
  no_space s1 = true -> no_space s2 = true -> no_space (s1 ++ s2) = true.
Proof.
  intros H1 H2. induction s1 as [|c s1 IH]; cbn [append no_space] in *;
    [assumption|].
  apply andb_true_iff in H1 as [Hc H1]. now rewrite Hc, (IH H1).
Qed.

Lemma format_02x_no_space (x : Z) :
  0 <= x < 256 -> no_space (format_02x x) = true.
Proof.
  intros Hx. rewrite (format_02x_byte x Hx).
  pose proof (Z.mod_pos_bound x 16 ltac:(lia)) as Hr.
  assert (Hq : 0 <= x / 16 < 16).
  { split; [apply Z.div_pos; lia|apply Z.div_lt_upper_bound; lia]. }
  cbn [no_space]. now rewrite !hex_char_no_space.
Qed.

Lemma int_of_str16_bytes (b g r : Z) :
  0 <= b < 256 -> 0 <= g < 256 -> 0 <= r < 256 ->
  int_of_str16 (format_02x b ++ format_02x g ++ format_02x r)
  = Ok (r + 256 * g + 65536 * b).
Proof.
  intros Hb Hg Hr. unfold int_of_str16.
  rewrite strip_no_space
    by (repeat apply no_space_app; now apply format_02x_no_space).
  assert (Hdigits :
    int16_digits (format_02x b ++ format_02x g ++ format_02x r) false 0
    = Some (r + 256 * g + 65536 * b)).
  { rewrite !int16_digits_byte by assumption.
    rewrite <- (append_empty (format_02x r)).
    rewrite int16_digits_byte by assumption. cbn [int16_digits].
    f_equal. lia. }
  revert Hdigits. rewrite (format_02x_byte b Hb).
  pose proof (Z.mod_pos_bound b 16 ltac:(lia)) as Hrem.
  assert (Hq : 0 <= b / 16 < 16).
  { split; [apply Z.div_pos; lia|apply Z.div_lt_upper_bound; lia]. }
  cbn [append]. intros Hdigits. unfold int16_unsigned.
  rewrite (hex_char_ord (b / 16) Hq), (hex_char_ord (b mod 16) Hrem).
  assert (H43 : ((if b / 16 <? 10 then 48 + b / 16 else 87 + b / 16) =? 43)
                = false) by (destruct (Z.ltb_spec (b / 16) 10); lia).
  assert (H45 : ((if b / 16 <? 10 then 48 + b / 16 else 87 + b / 16) =? 45)
                = false) by (destruct (Z.ltb_spec (b / 16) 10); lia).
  assert (Hx : (((if b mod 16 <? 10 then 48 + b mod 16 else 87 + b mod 16)
                 =? 120)
                || ((if b mod 16 <? 10 then 48 + b mod 16 else 87 + b mod 16)
                    =? 88)) = false).
  { destruct (Z.ltb_spec (b mod 16) 10); apply orb_false_iff; lia. }
  rewrite H43, H45, Hx, andb_false_r, Hdigits. reflexivity.
Qed.

(** [rgb2hex] packs three channels between 0 and 255 into one number
    with blue in the high byte and red in the low one, below 2^24, from
    which every channel can be read back; what follows the third
    element of the sequence is ignored. *)
Theorem rgb2hex_bytes (r g b : Z) (more : list Z) :
  0 <= r < 256 -> 0 <= g < 256 -> 0 <= b < 256 ->
  let value := r + 256 * g + 65536 * b in
  rgb2hex (ATuple (r :: g :: b :: more)) = Ok value /\
  rgb2hex (AList (r :: g :: b :: more)) = Ok value /\
  ExcelSpreadSheet.rgb2hex (ATuple (r :: g :: b :: more)) = Ok value /\
  0 <= value < 16777216 /\
  value mod 256 = r /\ value / 256 mod 256 = g /\ value / 65536 = b.
Proof.
  intros Hr Hg Hb value.
  assert (Hcall : int_of_str16 (format_02x b ++ format_02x g ++ format_02x r)
                  = Ok value) by now apply int_of_str16_bytes.
  repeat split; try exact Hcall; subst value; try lia.
  - replace (r + 256 * g + 65536 * b) with (r + (g + 256 * b) * 256) by lia.
    rewrite Z.mod_add by lia. apply Z.mod_small; lia.
  - replace (r + 256 * g + 65536 * b) with (r + (g + 256 * b) * 256) by lia.
    rewrite Z.div_add by lia. rewrite (Z.div_small r 256) by lia.
    replace (0 + (g + 256 * b)) with (g + b * 256) by lia.
    rewrite Z.mod_add by lia. apply Z.mod_small; lia.
  - replace (r + 256 * g + 65536 * b) with (r + 256 * g + b * 65536) by lia.
    rewrite Z.div_add by lia. rewrite (Z.div_small (r + 256 * g)) by lia.
    lia.
Qed.

Lemma rgb2hex_bytes_witness :
  rgb2hex (ATuple [255; 128; 0]) = Ok 33023.
Proof. apply (rgb2hex_bytes 255 128 0 []); lia. Defined.

Lemma hex_uint_no_space (d : Hexadecimal.uint) :
  no_space (HexadecimalString.NilEmpty.string_of_uint d) = true.
Proof. induction d; cbn; auto. Qed.

Lemma format_02x_no_space_any (z : Z) : no_space (format_02x z) = true.
Proof.
  assert (H : no_space (format_x z) = true).
  { unfold format_x, HexadecimalString.NilZero.string_of_int,
      HexadecimalString.NilZero.string_of_uint.
    destruct (Z.to_hex_int z) as [d|d]; destruct d;
      try reflexivity;
      try apply (hex_uint_no_space (Hexadecimal.D0 _));
      cbn [no_space]; rewrite ?andb_true_l;
      match goal with
      | |- no_space (HexadecimalString.NilEmpty.string_of_uint ?d) = true =>
          apply hex_uint_no_space
      end. }
  unfold format_02x. destruct (len (format_x z) <? 2); [|exact H].
  cbn [no_space]. now rewrite H.
Qed.

(** A negative number is printed with its sign in front. *)
Lemma format_02x_negative (z : Z) :
  z < 0 -> exists digits, format_02x z = String "-" digits.
Proof.
  intros Hz. destruct z as [|p|p]; try lia.
  unfold format_02x, format_x. cbn [Z.to_hex_int].
  unfold HexadecimalString.NilZero.string_of_int,
    HexadecimalString.NilZero.string_of_uint.
  destruct (Pos.to_hex_uint p);
    cbn [HexadecimalString.NilEmpty.string_of_uint];
    unfold len; cbn [String.length];
    match goal with
    | |- context [Z.of_nat ?n <? 2] =>
        destruct (Z.ltb_spec (Z.of_nat n) 2); [lia|]
    end;
    eexists; reflexivity.
Qed.

Lemma int_of_str16_after_byte (b : Z) (tail : string) :
  0 <= b < 256 -> no_space tail = true ->
  int_of_str16 (format_02x b ++ tail)
  = match int16_digits tail true b with
    | Some z => Ok z
    | None => raise ValueError
    end.
Proof.
  intros Hb Htail. unfold int_of_str16.
  rewrite strip_no_space
    by (apply no_space_app; [now apply format_02x_no_space|assumption]).
  assert (Hdigits : int16_digits (format_02x b ++ tail) false 0
                    = int16_digits tail true b).
  { rewrite int16_digits_byte by assumption. f_equal. }
  revert Hdigits. rewrite (format_02x_byte b Hb).
  pose proof (Z.mod_pos_bound b 16 ltac:(lia)) as Hrem.
  assert (Hq : 0 <= b / 16 < 16).
  { split; [apply Z.div_pos; lia|apply Z.div_lt_upper_bound; lia]. }
  cbn [append]. intros Hdigits. unfold int16_unsigned.
  rewrite (hex_char_ord (b / 16) Hq), (hex_char_ord (b mod 16) Hrem).
  assert (H43 : ((if b / 16 <? 10 then 48 + b / 16 else 87 + b / 16) =? 43)
                = false) by (destruct (Z.ltb_spec (b / 16) 10); lia).
  assert (H45 : ((if b / 16 <? 10 then 48 + b / 16 else 87 + b / 16) =? 45)
                = false) by (destruct (Z.ltb_spec (b / 16) 10); lia).
  assert (Hx : (((if b mod 16 <? 10 then 48 + b mod 16 else 87 + b mod 16)
                 =? 120)
                || ((if b mod 16 <? 10 then 48 + b mod 16 else 87 + b mod 16)
                    =? 88)) = false).
  { destruct (Z.ltb_spec (b mod 16) 10); apply orb_false_iff; lia. }
  rewrite H43, H45, Hx, andb_false_r, Hdigits. reflexivity.
Qed.

(** The failures of [rgb2hex].  An argument that is neither a tuple nor
    a list raises [TypeError]; a sequence of fewer than three elements
    raises [IndexError]; and, with a blue channel between 0 and 255, a
    negative green channel, or a negative red one after a green one
    between 0 and 255, raises the [ValueError] of [int]: the sign is
    printed in the middle of the digits. *)
Theorem rgb2hex_failures (items : list Z) (r g b : Z) (more : list Z) :
  (List.length items < 3)%nat ->
  0 <= b < 256 -> g < 0 \/ (0 <= g < 256 /\ r < 0) ->
  rgb2hex ANotSequence = Raise (TypeError unsupported_argument) /\
  rgb2hex (ATuple items) = Raise IndexError /\
  rgb2hex (AList items) = Raise IndexError /\
  rgb2hex (ATuple (r :: g :: b :: more)) = Raise ValueError.
Proof.
  intros Hlen Hb Hneg.
  split; [reflexivity|].
  assert (Hshort : item items 2 = Raise IndexError).
  { unfold item. destruct items as [|x [|y [|z items]]];
      cbn [List.length] in Hlen; try reflexivity; lia. }
  split; [unfold rgb2hex; now rewrite Hshort|].
  split; [unfold rgb2hex; now rewrite Hshort|].
  unfold rgb2hex, item. cbn [nth_error bind].
  rewrite int_of_str16_after_byte;
    [|assumption
     |apply no_space_app; apply format_02x_no_space_any].
  destruct Hneg as [Hg|[Hg Hr]].
  - destruct (format_02x_negative g Hg) as [digits ->]. reflexivity.
  - rewrite int16_digits_byte by assumption.
    destruct (format_02x_negative r Hr) as [digits ->]. reflexivity.
Qed.

Lemma rgb2hex_failures_witness :
  rgb2hex (ATuple [1; 2]) = Raise IndexError /\
  rgb2hex (ATuple [-1; 0; 0]) = Raise ValueError.
Proof.
  split.
  - apply (rgb2hex_failures [1; 2] 0 (-1) 0 []); cbn; lia.
  - apply (rgb2hex_failures [] (-1) 0 0 []); cbn; lia.
Defined.

(** ** Keyword arguments of the formatting methods *)

Lemma del_length {V : Type} (k : string) (d : dict V) :
  has_key k d = true -> (List.length (del k d) < List.length d)%nat.
Proof.
  unfold has_key, del. induction d as [|entry d IH]; cbn [existsb filter];
    [discriminate|].
  intros H. destruct (String.eqb (fst entry) k) eqn:E; cbn [negb].
  - pose proof (filter_length_le
                  (fun entry => negb (String.eqb (fst entry) k)) d).
    cbn [List.length]. lia.
  - cbn [orb] in H. specialize (IH H). cbn [List.length]. lia.
Qed.

Lemma has_key_fst {V : Type} (d : dict V) (k : string) :
  In k (map fst d) -> has_key k d = true.
Proof.
  intros H. apply in_map_iff in H as (entry & <- & Hin).
  unfold has_key. apply existsb_exists. exists entry.
  split; [assumption|apply String.eqb_refl].
Qed.

(** The loop stops with [RuntimeError] at the first unknown key, after
    the warning about it; without an unknown key it changes nothing. *)
Lemma drop_unknown_spec {V : Type} (arg_list : list string) (keys : list string) :
  forall (kwargs : dict V) (warned : list string),
    (forall k, In k keys -> has_key k kwargs = true) ->
    ExcelSpreadSheet.drop_unknown arg_list (List.length kwargs)
      keys kwargs warned
    = match first_unknown arg_list keys with
      | Some k => ((warned ++ [k])%list, None)
      | None => (warned, Some kwargs)
      end.
Proof.
  induction keys as [|k keys IH]; intros kwargs warned Hkeys.
  - cbn. now rewrite Nat.eqb_refl.
  - cbn [ExcelSpreadSheet.drop_unknown first_unknown find].
    rewrite Nat.eqb_refl. cbn [negb].
    destruct (existsb (String.eqb k) arg_list); cbn [negb].
    + apply IH. intros k' Hk'. apply Hkeys. now right.
    + pose proof (del_length k kwargs (Hkeys k (or_introl eq_refl))) as Hlt.
      destruct keys; cbn [ExcelSpreadSheet.drop_unknown];
        destruct (Nat.eqb_spec (List.length (del k kwargs))
                    (List.length kwargs)); try lia; reflexivity.
Qed.

Lemma first_unknown_none (arg_list keys : list string) :
  (forall k, In k keys -> In k arg_list) ->
  first_unknown arg_list keys = None.
Proof.
  intros H. unfold first_unknown.
  destruct (find _ keys) as [k|] eqn:E; [|reflexivity].
  apply find_some in E as [Hin Hk]. apply negb_true_iff in Hk.
  assert (Hex : existsb (String.eqb k) arg_list = true).
  { apply existsb_exists. exists k. split; [now apply H|apply String.eqb_refl]. }
  congruence.
Qed.

(** [first_unknown] names the key before which every key is known and
    which is itself unknown. *)
Lemma first_unknown_split (arg_list keys : list string) (k : string) :
  first_unknown arg_list keys = Some k <->
  exists before after,
    keys = (before ++ k :: after)%list /\
    (forall x, In x before -> In x arg_list) /\ ~ In k arg_list.
Proof.
  unfold first_unknown. split.
  - induction keys as [|x keys IH]; cbn [find]; [discriminate|].
    destruct (existsb (String.eqb x) arg_list) eqn:E; cbn [negb].
    + intros H. destruct (IH H) as (before & after & -> & Hbefore & Hk).
      exists (x :: before), after. split; [reflexivity|]. split; [|exact Hk].
      intros y [<-|Hy]; [|now apply Hbefore].
      apply existsb_exists in E as (z & Hz & Heq).
      apply String.eqb_eq in Heq. now subst z.
    + intros [= <-]. exists [], keys. split; [reflexivity|].
      split; [intros y []|]. intros Hin.
      assert (existsb (String.eqb x) arg_list = true); [|congruence].
      apply existsb_exists. exists x. split; [exact Hin|apply String.eqb_refl].
  - intros (before & after & -> & Hbefore & Hk).
    induction before as [|x before IH]; cbn [app find].
    + destruct (existsb (String.eqb k) arg_list) eqn:E; [|reflexivity].
      apply existsb_exists in E as (z & Hz & Heq).
      apply String.eqb_eq in Heq. subst z. contradiction.
    + assert (E : existsb (String.eqb x) arg_list = true).
      { apply existsb_exists. exists x.
        split; [apply Hbefore; now left|apply String.eqb_refl]. }
      rewrite E. cbn [negb]. apply IH.
      intros y Hy. apply Hbefore. now right.
Qed.



(** With keyword arguments that [get_format_args] lists, and no
    others, [format_range] warns about nothing, leaves the arguments as
    they are and goes on exactly as [read_dataframe] does: workbook,
    sheet, then range. *)
Theorem format_range_known_keywords {V : Type}
  (self : ExcelSpreadSheet.t) (sheet : pyval) (excel_range : option string)
  (startrow endrow startcol endcol : pyval) (kwargs : dict V) :
  (forall k, In k (map fst kwargs) ->
             In k ExcelSpreadSheet.get_format_args) ->
  ExcelSpreadSheet.format_range self sheet excel_range
    startrow endrow startcol endcol kwargs
  = ([],
     of_result
       (excel_range <- ExcelSpreadSheet.read_dataframe_range self sheet
                         excel_range startrow endrow startcol endcol ;;
        Ok (kwargs, excel_range))).
Proof.
  intros Hk. unfold ExcelSpreadSheet.format_range.
  rewrite drop_unknown_spec by apply has_key_fst.
  rewrite (first_unknown_none ExcelSpreadSheet.Format_keys _ Hk).
  unfold ExcelSpreadSheet.read_dataframe_range.
  destruct (ExcelSpreadSheet._validate_workbook self); [|reflexivity].
  cbn [bind].
  destruct (ExcelSpreadSheet._validate_worksheet self sheet); reflexivity.
Qed.

Lemma format_range_known_keywords_witness :
  ExcelSpreadSheet.format_range
    {| ExcelSpreadSheet._wb_open := 1;
       ExcelSpreadSheet.sheetnames := ["Sheet1"] |}
    (PyStr "Sheet1") (Some "A1:B2") PyNone PyNone PyNone PyNone
    [("bold", true); ("merge", false)]
  = ([], Returns ([("bold", true); ("merge", false)], "A1:B2")).
Proof.
  apply (format_range_known_keywords
           {| ExcelSpreadSheet._wb_open := 1;
              ExcelSpreadSheet.sheetnames := ["Sheet1"] |}
           (PyStr "Sheet1") (Some "A1:B2") PyNone PyNone PyNone PyNone
           [("bold", true); ("merge", false)]).
  cbn. intros k [<-|[<-|[]]]; tauto.
Defined.

Lemma add_required_spec {V : Type} (names : list string) :
  forall kwargs : dict V,
    ExcelSpreadSheet.add_required names kwargs
    = if forallb (fun i => has_key i kwargs) names then Ok kwargs
      else Raise ValueError.
Proof.
  induction names as [|i names IH]; intros kwargs;
    cbn [ExcelSpreadSheet.add_required forallb]; [reflexivity|].
  destruct (has_key i kwargs); [apply IH|reflexivity].
Qed.

(** [conditional_formatting] does not supply a missing "logic", "value"
    or "value2": when the keyword arguments are all known but lack one
    of the three, it raises [ValueError] before it validates anything;
    when they hold all three it goes on as [read_dataframe] does. *)
Theorem conditional_formatting_required {V : Type}
  (self : ExcelSpreadSheet.t) (sheet : pyval) (excel_range : option string)
  (startrow endrow startcol endcol : pyval) (kwargs : dict V) :
  (forall k, In k (map fst kwargs) ->
             In k (ExcelSpreadSheet.Condition_keys
                   ++ ExcelSpreadSheet.Format_keys)) ->
  ExcelSpreadSheet.conditional_formatting self sheet excel_range
    startrow endrow startcol endcol kwargs
  = if has_key "logic" kwargs && has_key "value" kwargs
       && has_key "value2" kwargs
    then
      ([],
       of_result
         (excel_range <- ExcelSpreadSheet.read_dataframe_range self sheet
                           excel_range startrow endrow startcol endcol ;;
          Ok (kwargs, excel_range)))
    else ([], Raises ValueError).
Proof.
  intros Hk. unfold ExcelSpreadSheet.conditional_formatting.
  rewrite drop_unknown_spec by apply has_key_fst.
  rewrite (first_unknown_none _ _ Hk).
  rewrite add_required_spec.
  cbn [forallb ExcelSpreadSheet.Condition_keys]. rewrite andb_true_r.
  rewrite andb_assoc.
  destruct (has_key "logic" kwargs && has_key "value" kwargs
            && has_key "value2" kwargs); [|reflexivity].
  cbn [bind]. unfold ExcelSpreadSheet.read_dataframe_range.
  destruct (ExcelSpreadSheet._validate_workbook self); [|reflexivity].
  cbn [bind].
  destruct (ExcelSpreadSheet._validate_worksheet self sheet); reflexivity.
Qed.

Lemma conditional_formatting_required_witness :
  ExcelSpreadSheet.conditional_formatting
    {| ExcelSpreadSheet._wb_open := 1;
       ExcelSpreadSheet.sheetnames := ["Sheet1"] |}
    (PyStr "Sheet1") (Some "A1:B2") PyNone PyNone PyNone PyNone
    [("logic", true); ("value", false); ("bold", true)]
  = ([], Raises ValueError).
Proof.
  apply (conditional_formatting_required
           {| ExcelSpreadSheet._wb_open := 1;
              ExcelSpreadSheet.sheetnames := ["Sheet1"] |}
           (PyStr "Sheet1") (Some "A1:B2") PyNone PyNone PyNone PyNone
           [("logic", true); ("value", false); ("bold", true)]).
  cbn. intros k [<-|[<-|[<-|[]]]]; tauto.
Defined.

(** ** Sheet visibility *)

(** [set_sheet_visibility] accepts no integer: on an open workbook and
    a valid sheet every integer raises [ValueError], the documented
    values -1, 1 and 2 included. *)
Theorem set_sheet_visibility_integer
  (self : ExcelSpreadSheet.t) (sheet : pyval) (visibility : Z) :
  ExcelSpreadSheet._validate_workbook self = Ok tt ->
  ExcelSpreadSheet._validate_worksheet self sheet = Ok tt ->
  ExcelSpreadSheet.set_sheet_visibility self sheet (PyInt visibility)
  = Raise ValueError.
Proof.
  intros Hwb Hws. unfold ExcelSpreadSheet.set_sheet_visibility.
  rewrite Hwb, Hws. reflexivity.
Qed.

Lemma set_sheet_visibility_integer_witness :
  ExcelSpreadSheet.set_sheet_visibility
    {| ExcelSpreadSheet._wb_open := 1;
       ExcelSpreadSheet.sheetnames := ["Sheet1"] |}
    (PyStr "Sheet1") (PyInt 2)
  = Raise ValueError.
Proof.
  apply (set_sheet_visibility_integer
           {| ExcelSpreadSheet._wb_open := 1;
              ExcelSpreadSheet.sheetnames := ["Sheet1"] |}
           (PyStr "Sheet1") 2); reflexivity.
Defined.

Lemma lookup_lower (s : string) (v : Z) :
  ExcelSpreadSheet.lookup s ExcelSpreadSheet.visibilty_values = Some v ->
  lower s = s.
Proof.
  unfold ExcelSpreadSheet.lookup, ExcelSpreadSheet.visibilty_values.
  cbn [find fst].
  destruct (String.eqb_spec "visible" s) as [<-|_]; [reflexivity|].
  destruct (String.eqb_spec "hidden" s) as [<-|_]; [reflexivity|].
  destruct (String.eqb_spec "very hidden" s) as [<-|_]; [reflexivity|].
  discriminate.
Qed.

(** A name of a visibility is checked without regard to case but looked
    up as it is written: on an open workbook and a valid sheet, a name
    with a capital letter whose lower-case form is "visible", "hidden"
    or "very hidden" is accepted and handed to the host as the string
    itself, not as the number of that visibility, which is what the
    lower-case form of the same name is turned into: the number that
    [visibilty_values] holds for it (-1, 1 or 2). *)
Theorem set_sheet_visibility_capital
  (self : ExcelSpreadSheet.t) (sheet : pyval) (name : string) :
  ExcelSpreadSheet._validate_workbook self = Ok tt ->
  ExcelSpreadSheet._validate_worksheet self sheet = Ok tt ->
  has_key (lower name) ExcelSpreadSheet.visibilty_values = true ->
  lower name <> name ->
  ExcelSpreadSheet.set_sheet_visibility self sheet (PyStr name)
  = Ok (PyStr name) /\
  exists number,
    In (lower name, number) ExcelSpreadSheet.visibilty_values /\
    ExcelSpreadSheet.set_sheet_visibility self sheet (PyStr (lower name))
    = Ok (PyInt number).
Proof.
  intros Hwb Hws Hkey Hcase. unfold ExcelSpreadSheet.set_sheet_visibility.
  rewrite Hwb, Hws. cbn [bind]. split.
  - rewrite Hkey. cbn [negb].
    destruct (ExcelSpreadSheet.lookup name ExcelSpreadSheet.visibilty_values)
      as [v|] eqn:E; [|reflexivity].
    exfalso. apply Hcase. exact (lookup_lower name v E).
  - revert Hkey.
    unfold has_key, ExcelSpreadSheet.lookup,
      ExcelSpreadSheet.visibilty_values.
    cbn [existsb find fst].
    destruct (String.eqb_spec "visible" (lower name)) as [<-|_];
      [intros _; exists (-1); split; [cbn; tauto|reflexivity]|].
    destruct (String.eqb_spec "hidden" (lower name)) as [<-|_];
      [intros _; exists 1; split; [cbn; tauto|reflexivity]|].
    destruct (String.eqb_spec "very hidden" (lower name)) as [<-|_];
      [intros _; exists 2; split; [cbn; tauto|reflexivity]|].
    discriminate.
Qed.

Lemma set_sheet_visibility_capital_witness :
  ExcelSpreadSheet.set_sheet_visibility
    {| ExcelSpreadSheet._wb_open := 1;
       ExcelSpreadSheet.sheetnames := ["Sheet1"] |}
    (PyStr "Sheet1") (PyStr "Very Hidden")
  = Ok (PyStr "Very Hidden") /\
  exists number,
    In (lower "Very Hidden", number) ExcelSpreadSheet.visibilty_values /\
    ExcelSpreadSheet.set_sheet_visibility
      {| ExcelSpreadSheet._wb_open := 1;
         ExcelSpreadSheet.sheetnames := ["Sheet1"] |}
      (PyStr "Sheet1") (PyStr (lower "Very Hidden"))
    = Ok (PyInt number).
Proof.
  apply (set_sheet_visibility_capital
           {| ExcelSpreadSheet._wb_open := 1;
              ExcelSpreadSheet.sheetnames := ["Sheet1"] |}
           (PyStr "Sheet1") "Very Hidden");
    try reflexivity.
  discriminate.
Defined.

(** ** The address of a cell *)

Lemma validate_column_letter (c : ascii) :
  is_alpha c = true ->
  ExcelSpreadSheet._validate_column (PyStr (String c EmptyString))
  = Ok (Some (ord c - 64)).
Proof.
  intros Hc. unfold ExcelSpreadSheet._validate_column.
  cbn [ExcelSpreadSheet.has_non_alnum]. unfold is_alnum. rewrite Hc.
  cbn [orb negb]. change (len (String c EmptyString) >? 3) with false.
  cbv iota.
  assert (Hval : ExcelSpreadSheet.col2num (String c EmptyString)
                 = ord c - 64).
  { unfold ExcelSpreadSheet.col2num. cbn. change (ord "A") with 65. lia. }
  rewrite Hval.
  assert (ord c < 256).
  { unfold ord. pose proof (N_ascii_bounded c). lia. }
  destruct (Z.gtb_spec (ord c - 64) 18278); [lia|reflexivity].
Qed.

Lemma cell_regex_shape (cellref : string) :
  ExcelSpreadSheet._cell_regex cellref = true ->
  exists col digit rest,
    cellref = String col (String digit rest) /\
    is_alpha col = true /\ is_digit digit = true.
Proof.
  intros Hm. destruct cellref as [|col rest]; [discriminate Hm|].
  cbn [ExcelSpreadSheet._cell_regex] in Hm.
  apply andb_true_iff in Hm as [Hcol Hrest].
  destruct rest as [|digit rest].
  { vm_compute in Hrest. discriminate Hrest. }
  assert (Hd : is_digit digit = true).
  { unfold digits_1 in Hrest. cbn [span] in Hrest.
    destruct (is_digit digit); [reflexivity|].
    vm_compute in Hrest. discriminate Hrest. }
  now exists col, digit, rest.
Qed.

(** [read_cell] (and [write_cell]) with a reference that matches the
    strict pattern, on an open workbook and a valid sheet, address the
    row of the first digit and the column [ord(letter) - 64]: 1 to 26
    for an upper-case letter, but 33 to 58 for a lower-case one. *)
Theorem read_cell_address_of_reference
  (self : ExcelSpreadSheet.t) (sheet : pyval) (cellref : string) :
  ExcelSpreadSheet._validate_workbook self = Ok tt ->
  ExcelSpreadSheet._validate_worksheet self sheet = Ok tt ->
  ExcelSpreadSheet._cell_regex cellref = true ->
  exists col digit rest,
    cellref = String col (String digit rest) /\
    ExcelSpreadSheet.read_cell_address self sheet (Some cellref) PyNone PyNone
    = Ok (Some (ord digit - 48), Some (ord col - 64)) /\
    (is_upper col = true -> 1 <= ord col - 64 <= 26) /\
    (is_upper col = false -> 33 <= ord col - 64 <= 58).
Proof.
  intros Hwb Hws Hm.
  destruct (cell_regex_shape cellref Hm) as (col & digit & rest & -> & Hc & Hd).
  exists col, digit, rest. split; [reflexivity|]. split.
  - unfold ExcelSpreadSheet.read_cell_address. rewrite Hwb, Hws. cbn [bind].
    unfold ExcelSpreadSheet._validate_cellref.
    cbn [ExcelSpreadSheet.is_None ExcelSpreadSheet.absent andb negb].
    rewrite Hm. cbn [negb]. unfold getitem. cbn [String.get bind].
    rewrite (int_of_str_digit digit Hd). cbn [bind fst snd].
    rewrite (validate_column_letter col Hc). reflexivity.
  - unfold is_alpha, is_upper, in_range in *.
    split; intros Hu.
    + apply andb_true_iff in Hu. lia.
    + rewrite Hu in Hc. cbn [orb] in Hc. apply andb_true_iff in Hc. lia.
Qed.

Lemma read_cell_address_of_reference_witness :
  exists col digit rest,
    "b5" = String col (String digit rest) /\
    ExcelSpreadSheet.read_cell_address
      {| ExcelSpreadSheet._wb_open := 1;
         ExcelSpreadSheet.sheetnames := ["Sheet1"] |}
      (PyStr "Sheet1") (Some "b5") PyNone PyNone
    = Ok (Some (ord digit - 48), Some (ord col - 64)) /\
    (is_upper col = true -> 1 <= ord col - 64 <= 26) /\
    (is_upper col = false -> 33 <= ord col - 64 <= 58).
Proof.
  apply (read_cell_address_of_reference
           {| ExcelSpreadSheet._wb_open := 1;
              ExcelSpreadSheet.sheetnames := ["Sheet1"] |}
           (PyStr "Sheet1") "b5"); reflexivity.
Defined.

(** One co-ordinate alone is not refused.  Given together with a
    reference that matches the strict pattern, it is ignored: the
    result is that of the reference alone.  Given without a reference,
    an integer row or an integer column up to 18278 is returned with
    [None] in the place of the other. *)
Theorem validate_cellref_lone_coordinate (cellref : string) (row col : Z) :
  ExcelSpreadSheet._cell_regex cellref = true -> col <= 18278 ->
  ExcelSpreadSheet._validate_cellref (Some cellref) (PyInt row) PyNone
  = ExcelSpreadSheet._validate_cellref (Some cellref) PyNone PyNone /\
  ExcelSpreadSheet._validate_cellref (Some cellref) PyNone (PyInt col)
  = ExcelSpreadSheet._validate_cellref (Some cellref) PyNone PyNone /\
  ExcelSpreadSheet._validate_cellref None (PyInt row) PyNone
  = Ok (PyInt row, PyNone) /\
  ExcelSpreadSheet._validate_cellref None PyNone (PyInt col)
  = Ok (PyNone, PyInt col).
Proof.
  intros Hm Hcol. unfold ExcelSpreadSheet._validate_cellref.
  cbn [ExcelSpreadSheet.is_None ExcelSpreadSheet.absent andb negb].
  rewrite Hm. cbn [negb].
  repeat split.
  cbn [ExcelSpreadSheet._validate_row ExcelSpreadSheet._validate_column bind].
  destruct (Z.gtb_spec col 18278); [lia|reflexivity].
Qed.

Lemma validate_cellref_lone_coordinate_witness :
  ExcelSpreadSheet._validate_cellref (Some "B5") (PyInt 9) PyNone
  = ExcelSpreadSheet._validate_cellref (Some "B5") PyNone PyNone /\
  ExcelSpreadSheet._validate_cellref (Some "B5") PyNone (PyInt 3)
  = ExcelSpreadSheet._validate_cellref (Some "B5") PyNone PyNone /\
  ExcelSpreadSheet._validate_cellref None (PyInt 9) PyNone
  = Ok (PyInt 9, PyNone) /\
  ExcelSpreadSheet._validate_cellref None PyNone (PyInt 3)
  = Ok (PyNone, PyInt 3).
Proof.
  apply (validate_cellref_lone_coordinate "B5" 9 3); [reflexivity|lia].
Defined.

(** ** Columns *)

(** Validating twice is validating once: what [_validate_column] and
    [_validate_row] return is accepted again and returned unchanged, as
    the methods that validate a column a second time rely on. *)
Theorem validators_idempotent (value : pyval) (v : option Z) :
  (ExcelSpreadSheet._validate_column value = Ok v ->
   ExcelSpreadSheet._validate_column (ExcelSpreadSheet.of_option v) = Ok v) /\
  (ExcelSpreadSheet._validate_row value = Ok v ->
   ExcelSpreadSheet._validate_row (ExcelSpreadSheet.of_option v) = Ok v).
Proof.
  split.
  - unfold ExcelSpreadSheet._validate_column.
    destruct value as [|z|s].
    + intros [= <-]. reflexivity.
    + destruct (Z.gtb_spec z 18278) as [|Hz]; [discriminate|].
      intros [= <-]. cbn [ExcelSpreadSheet.of_option].
      destruct (Z.gtb_spec z 18278); [lia|reflexivity].
    + destruct (ExcelSpreadSheet.has_non_alnum s); [discriminate|].
      destruct (len s >? 3); [discriminate|].
      destruct (Z.gtb_spec (ExcelSpreadSheet.col2num s) 18278) as [|Hz];
        [discriminate|].
      intros [= <-]. cbn [ExcelSpreadSheet.of_option].
      destruct (Z.gtb_spec (ExcelSpreadSheet.col2num s) 18278);
        [lia|reflexivity].
  - unfold ExcelSpreadSheet._validate_row.
    destruct value as [|z|s].
    + intros [= <-]. reflexivity.
    + intros [= <-]. reflexivity.
    + destruct (int_of_str s); [|discriminate].
      intros [= <-]. reflexivity.
Qed.

Lemma validators_idempotent_witness :
  ExcelSpreadSheet._validate_column
    (ExcelSpreadSheet.of_option (Some 28)) = Ok (Some 28).
Proof.
  apply (proj1 (validators_idempotent (PyStr "AB") (Some 28))). reflexivity.
Defined.

Lemma is_alnum_rank (c : ascii) :
  is_alnum c = true -> -16 <= rank c <= 58.
Proof.
  unfold is_alnum, is_alpha, is_digit, in_range, rank.
  change (ord "A") with 65. intros H.
  repeat match goal with
  | H : _ || _ = true |- _ => apply orb_true_iff in H as [H|H]
  | H : _ && _ = true |- _ => apply andb_true_iff in H as [? ?]
  end; lia.
Qed.

Lemma is_digit_rank (c : ascii) :
  is_digit c = true -> -16 <= rank c <= -7.
Proof.
  unfold is_digit, in_range, rank. change (ord "A") with 65.
  intros H. apply andb_true_iff in H as [? ?]. lia.
Qed.

Lemma col2num_three (a b c : ascii) :
  ExcelSpreadSheet.col2num (String a (String b (String c EmptyString)))
  = rank a * 676 + rank b * 26 + rank c.
Proof.
  change (ExcelSpreadSheet.col2num ?s) with (col2num_str s).
  rewrite !col2num_str_cons. cbn [String.length].
  change (col2num_str EmptyString) with 0.
  change (26 ^ Z.of_nat 0) with 1. change (26 ^ Z.of_nat 1) with 26.
  change (26 ^ Z.of_nat 2) with 676. lia.
Qed.

(** A column of three alphanumeric characters whose first is a
    lower-case letter is always refused as too wide ([ValueError]): the
    rank of a lower-case letter is 33 or more, and 33 * 676 is beyond
    18278. *)
Theorem validate_column_lower_case_too_wide (a b c : ascii) :
  in_range 97 122 a = true -> is_alnum b = true -> is_alnum c = true ->
  ExcelSpreadSheet._validate_column
    (PyStr (String a (String b (String c EmptyString))))
  = Raise ValueError.
Proof.
  intros Ha Hb Hc. unfold ExcelSpreadSheet._validate_column.
  assert (Haa : is_alnum a = true).
  { unfold is_alnum, is_alpha. rewrite Ha. now rewrite orb_true_r. }
  cbn [ExcelSpreadSheet.has_non_alnum]. rewrite Haa, Hb, Hc. cbn [negb orb].
  change (len (String a (String b (String c EmptyString))) >? 3) with false.
  cbv iota. rewrite col2num_three.
  pose proof (is_alnum_rank b Hb). pose proof (is_alnum_rank c Hc).
  assert (33 <= rank a).
  { unfold in_range, rank in *. change (ord "A") with 65.
    apply andb_true_iff in Ha. lia. }
  destruct (Z.gtb_spec (rank a * 676 + rank b * 26 + rank c) 18278);
    [reflexivity|lia].
Qed.

Lemma validate_column_lower_case_too_wide_witness :
  ExcelSpreadSheet._validate_column (PyStr "abc") = Raise ValueError.
Proof.
  apply (validate_column_lower_case_too_wide "a" "b" "c"); reflexivity.
Defined.

(** A column written as one to three digits is not read as that
    number: a digit has a negative rank, and [_validate_column] returns
    a negative column without an error. *)
Theorem validate_column_of_digits (s : string) :
  all_digits s = true -> 1 <= len s <= 3 ->
  exists n,
    ExcelSpreadSheet._validate_column (PyStr s) = Ok (Some n) /\ n < 0.
Proof.
  intros Hd Hlen. exists (ExcelSpreadSheet.col2num s).
  assert (Hneg : ExcelSpreadSheet.col2num s < 0).
  { change (ExcelSpreadSheet.col2num s) with (col2num_str s).
    destruct s as [|a [|b [|c [|d s]]]]; unfold len in Hlen;
      cbn [String.length] in Hlen; try lia;
      cbn [all_digits] in Hd;
      repeat match goal with
      | H : _ && _ = true |- _ => apply andb_true_iff in H as [? ?]
      end;
      repeat match goal with
      | H : is_digit _ = true |- _ => apply is_digit_rank in H
      end;
      rewrite ?col2num_str_cons; cbn [String.length];
      change (col2num_str EmptyString) with 0;
      change (26 ^ Z.of_nat 0) with 1;
      change (26 ^ Z.of_nat 1) with 26;
      change (26 ^ Z.of_nat 2) with 676; lia. }
  split; [|exact Hneg].
  unfold ExcelSpreadSheet._validate_column.
  assert (Hal : ExcelSpreadSheet.has_non_alnum s = false).
  { clear Hlen Hneg. induction s as [|c s IH]; [reflexivity|].
    cbn [all_digits ExcelSpreadSheet.has_non_alnum] in *.
    apply andb_true_iff in Hd as [Hc Hs]. rewrite (IH Hs).
    unfold is_alnum. rewrite Hc. now rewrite orb_true_r. }
  rewrite Hal. destruct (Z.gtb_spec (len s) 3); [lia|].
  destruct (Z.gtb_spec (ExcelSpreadSheet.col2num s) 18278);
    [lia|reflexivity].
Qed.

Lemma validate_column_of_digits_witness :
  exists n,
    ExcelSpreadSheet._validate_column (PyStr "12") = Ok (Some n) /\ n < 0.
Proof.
  apply (validate_column_of_digits "12"); [reflexivity|].
  unfold len. cbn. lia.
Defined.

(** ** Range texts out of order *)

(** The text of an inverted rectangle is refused on the text path as on
    the co-ordinate path: for columns within the sheet and rows that are
    not negative and of at most 4300 digits (row < 10^4300; the text of
    a longer row is refused earlier, by [int] in [_validate_row], with a
    [ValueError] under the interpreter's default digit limit), with the
    end column left of the start column or the end row above the start
    row, [_validate_range] of the text reaches its
    [raise InvalidRangeError(...)], which ends in the [TypeError] of the
    constructor. *)
Theorem validate_range_text_inverted (startrow endrow startcol endcol : Z) :
  1 <= startcol <= 18278 -> 1 <= endcol <= 18278 ->
  0 <= startrow < 10 ^ int_max_str_digits ->
  0 <= endrow < 10 ^ int_max_str_digits ->
  endcol < startcol \/ endrow < startrow ->
  ExcelSpreadSheet._validate_range
    (Some (num2col_int startcol ++ decimal startrow ++ ":"
           ++ num2col_int endcol ++ decimal endrow)%string)
    PyNone PyNone PyNone PyNone
  = Raise (TypeError descriptor_needs_argument).
Proof.
  intros Hs He Hsr Her Hinv.
  rewrite validate_range_of_text by assumption.
  destruct (Z.gtb_spec startcol endcol); [reflexivity|].
  destruct (Z.gtb_spec startrow endrow); [reflexivity|lia].
Qed.

Lemma validate_range_text_inverted_witness :
  ExcelSpreadSheet._validate_range (Some "B1:A3") PyNone PyNone PyNone PyNone
  = Raise (TypeError descriptor_needs_argument).
Proof.
  apply (validate_range_text_inverted 1 3 2 1);
    [lia|lia|split; [lia|reflexivity]|split; [lia|reflexivity]|lia].
Defined.

Lemma letters_1_3_one (c : ascii) (rest : string) :
  is_alpha c = true -> stops is_alpha rest = true ->
  letters_1_3 (String c rest) = Some (String c EmptyString, rest).
Proof.
  intros Hc Hrest. unfold letters_1_3.
  change (String c rest) with (String c EmptyString ++ rest)%string.
  rewrite span_app; [reflexivity| |assumption].
  cbn [all_chars]. now rewrite Hc.
Qed.

Lemma digits_1_one (d : ascii) (rest : string) :
  is_digit d = true -> stops is_digit rest = true ->
  digits_1 (String d rest) = Some (String d EmptyString, rest).
Proof.
  intros Hd Hrest. unfold digits_1.
  change (String d rest) with (String d EmptyString ++ rest)%string.
  rewrite span_app; [reflexivity| |assumption].
  cbn [all_chars]. now rewrite Hd.
Qed.

(** The columns of a range text are compared by [ord(letter) - 64], not
    by the column they name: a text whose start column is a lower-case
    letter and whose end column is an upper-case letter is always
    refused, "a1:B2" as well, although column a is left of column B. *)
Theorem validate_range_text_mixed_case (c1 d1 c2 d2 : ascii) :
  in_range 97 122 c1 = true -> in_range 65 90 c2 = true ->
  is_digit d1 = true -> is_digit d2 = true ->
  ExcelSpreadSheet._validate_range
    (Some (String c1 (String d1 (String ":" (String c2
             (String d2 EmptyString))))))
    PyNone PyNone PyNone PyNone
  = Raise (TypeError descriptor_needs_argument).
Proof.
  intros Hc1 Hc2 Hd1 Hd2.
  assert (Ha1 : is_alpha c1 = true)
    by (unfold is_alpha; rewrite Hc1; apply orb_true_r).
  assert (Ha2 : is_alpha c2 = true) by (unfold is_alpha; now rewrite Hc2).
  unfold ExcelSpreadSheet._validate_range.
  cbn [ExcelSpreadSheet._validate_column ExcelSpreadSheet._validate_row
       bind forallb ExcelSpreadSheet.absent andb].
  unfold ExcelSpreadSheet._range_regex, ExcelSpreadSheet.bounded_range.
  rewrite (letters_1_3_one c1)
    by (try assumption; cbn [stops]; now rewrite (is_digit_not_alpha d1 Hd1)).
  cbn [obind]. rewrite (digits_1_one d1) by (try assumption; reflexivity).
  cbn [obind colon].
  rewrite (letters_1_3_one c2)
    by (try assumption; cbn [stops]; now rewrite (is_digit_not_alpha d2 Hd2)).
  cbn [obind]. rewrite (digits_1_one d2) by (try assumption; reflexivity).
  cbn [obind at_end group bind group1 group2 group3 group4 group5
       ExcelSpreadSheet.absent negb ExcelSpreadSheet.of_group].
  rewrite !validate_column_letter by assumption. cbn [bind].
  unfold ExcelSpreadSheet._validate_row.
  rewrite !int_of_str_digit by assumption.
  cbn [bind ExcelSpreadSheet.gt].
  unfold in_range in Hc1, Hc2.
  apply andb_true_iff in Hc1. apply andb_true_iff in Hc2.
  destruct (Z.gtb_spec (ord c1 - 64) (ord c2 - 64)); [reflexivity|lia].
Qed.

Lemma validate_range_text_mixed_case_witness :
  ExcelSpreadSheet._validate_range (Some "a1:B2") PyNone PyNone PyNone PyNone
  = Raise (TypeError descriptor_needs_argument).
Proof.
  apply (validate_range_text_mixed_case "a" "1" "B" "2"); reflexivity.
Defined.

(** ** Timestamps in a series *)


